(** * Criminal Investigation Tracker: a shallow embedding of [main.py]

    The Flask handlers of [main.py] are modelled as functions from the
    state of the world (the four SQLite tables and the file
    [ml_model.pkl]) and the value that [request.get_json()] produced to the
    HTTP outcome and the new state of the world.

    Conventions.
    - [data] is the Python value returned by [request.get_json()]: a JSON
      value, with [JNull] for [None].  Requests that the framework itself
      rejects inside [get_json] never reach the handler's own statements and
      are not part of the model.
    - JSON numbers and SQLite INTEGER values are integers ([Z]).
    - A Python [str] is a [string]; [String.le] compares byte by byte, which
      on UTF-8 text is the code-point order Python uses.
    - Whatever the libraries do with values the handlers do not anticipate
      (a list bound to a text column, a primary key that is not an integer,
      a category that is not a string) is left open in the class
      [Externals]; every theorem holds for every instance of it. *)

From stdpp Require Import gmap strings list fin_maps sorting.
From Stdlib Require Import ZArith Lia.

#[local] Set Warnings "-register-all".
#[local] Open Scope string_scope.
#[local] Open Scope Z_scope.

(** ** Python values *)

(** The values [request.get_json()] can return. *)
Inductive json : Type :=
| JNull
| JBool (b : bool)
| JNum (z : Z)
| JStr (s : string)
| JArr (l : list json)
| JObj (d : gmap string json).

(** Python truth value testing, as used by [if not data] and
    [if not case_id]. *)
Definition truthy (v : json) : bool :=
  match v with
  | JNull => false
  | JBool b => b
  | JNum z => negb (z =? 0)
  | JStr s => negb (String.eqb s "")
  | JArr l => match l with [] => false | _ :: _ => true end
  | JObj d => negb (bool_decide (d = ∅))
  end.

(** Exceptions the handlers can meet. *)
Inductive pyexn : Type :=
| AttributeError
| TypeError
| KeyError
| ValueError
| DBAPIError.

(** A computation that returns or raises. *)
Inductive result (A : Type) : Type :=
| Ok (a : A)
| Raise (e : pyexn).
Arguments Ok {A} a.
Arguments Raise {A} e.

Definition rbind {A B} (m : result A) (k : A → result B) : result B :=
  match m with
  | Ok a => k a
  | Raise e => Raise e
  end.

Notation "x ←r m ; k" := (rbind m (fun x => k))
  (at level 100, m at next level, right associativity,
   format "x  ←r  m ;  '/' k").

(** [data.get(k)]: only a dict has the method; a missing key gives [None]. *)
Definition py_get (data : json) (k : string) : result json :=
  match data with
  | JObj d => Ok (default JNull (d !! k))
  | _ => Raise AttributeError
  end.

(** [data[k]] with a string key. *)
Definition py_getitem (data : json) (k : string) : result json :=
  match data with
  | JObj d => match d !! k with
              | Some v => Ok v
              | None => Raise KeyError
              end
  | _ => Raise TypeError
  end.

(** ** HTTP outcomes *)

(** What the client gets: the response a handler returned, or the fault the
    framework reports when the handler raised. *)
Inductive outcome : Type :=
| Resp (status : Z) (body : json)
| Unhandled (e : pyexn).

(** [jsonify({k: v})]. *)
Definition jsonify1 (k v : string) : json := JObj {[ k := JStr v ]}.

Definition has_key (k : string) (body : json) : Prop :=
  match body with
  | JObj d => is_Some (d !! k)
  | _ => False
  end.

(** ** Database models *)

(** A value held in a column. *)
Inductive colval : Type :=
| SNull
| SInt (z : Z)
| SText (s : string).

Definition colval_json (v : colval) : json :=
  match v with
  | SNull => JNull
  | SInt z => JNum z
  | SText s => JStr s
  end.

Module User.
Record t : Type := mk
  { id : Z;
    username : colval;
    password : colval;
    role : colval }.
End User.

Module Case.
Record t : Type := mk
  { id : Z;
    crime_type : colval;
    location : colval;
    time_of_day : colval;
    status : colval }.
End Case.

Module Suspect.
Record t : Type := mk
  { id : Z;
    name : colval;
    criminal_history : colval }.
End Suspect.

Module Evidence.
Record t : Type := mk
  { id : Z;
    case_id : Z;
    evidence_type : colval;
    description : colval }.
End Evidence.

(** ** The model bundle *)

(** A fitted [LabelEncoder]: its [classes_]. *)
Definition LabelEncoder : Type := list string.

(** A fitted classifier, seen through [predict] on one encoded row. *)
Record Classifier : Type :=
  { predict : Z → Z → Z → string }.

(** The tuple [(model, le_crime, le_location, le_time)] that [joblib.dump]
    writes and [joblib.load] reads. *)
Record Bundle : Type :=
  { model : Classifier;
    le_crime : LabelEncoder;
    le_location : LabelEncoder;
    le_time : LabelEncoder }.

(** ** The state of the world *)

Record World : Type :=
  { users : list User.t;
    cases : list Case.t;
    suspects : list Suspect.t;
    evidences : list Evidence.t;
    ml_model_pkl : option Bundle }.

Definition set_cases (w : World) (l : list Case.t) : World :=
  {| users := users w; cases := l; suspects := suspects w;
     evidences := evidences w; ml_model_pkl := ml_model_pkl w |}.

Definition set_evidences (w : World) (l : list Evidence.t) : World :=
  {| users := users w; cases := cases w; suspects := suspects w;
     evidences := l; ml_model_pkl := ml_model_pkl w |}.

Definition set_ml_model_pkl (w : World) (b : option Bundle) : World :=
  {| users := users w; cases := cases w; suspects := suspects w;
     evidences := evidences w; ml_model_pkl := b |}.

(** ** What the libraries decide *)

(** One row of [training_data.csv]. *)
Record Row : Type :=
  { row_crime_type : string;
    row_location : string;
    row_time_of_day : string;
    row_suspect : string }.

Class Externals : Type :=
  { (** binding a value that is neither [None] nor a [str] to a text
        column; [None] when the driver refuses it *)
    bind_other : json → option colval;
    (** [Query.get] on an identity that is not an integer: it raises
        ([None]), matches no row ([Some None]) or is compared as an
        integer *)
    ident_other : json → option (option Z);
    (** binding an identity that is not an integer to the integer column
        [case_id]; [false] when the driver refuses it *)
    fk_other : json → bool;
    (** [LabelEncoder.transform([v])[0]] on a value that is not a [str];
        [None] when it raises *)
    transform_other : LabelEncoder → json → option Z;
    (** [RandomForestClassifier().fit(X, y)]: randomised, and it raises
        ([None]) on data it cannot use *)
    rf_fit : list (Z * Z * Z) → list string → option Classifier }.

(** ** Persistence *)

(** The identifier SQLite gives a new row: one more than the largest in the
    table. *)
Definition fresh_id (ids : list Z) : Z := Z.succ (foldr Z.max 0 ids).

Definition find_case (w : World) (i : Z) : option Case.t :=
  List.find (fun c => bool_decide (Case.id c = i)) (cases w).

Section persistence.
Context `{Externals}.

(** Binding a Python value to a text column. *)
Definition bind_text (v : json) : result colval :=
  match v with
  | JNull => Ok SNull
  | JStr s => Ok (SText s)
  | _ => match bind_other v with
         | Some c => Ok c
         | None => Raise DBAPIError
         end
  end.

(** [Case.query.get(ident)]. *)
Definition Case_query_get (w : World) (ident : json) : result (option Case.t) :=
  match ident with
  | JNum i => Ok (find_case w i)
  | _ => match ident_other ident with
         | Some (Some i) => Ok (find_case w i)
         | Some None => Ok None
         | None => Raise DBAPIError
         end
  end.

(** Binding the request's [case_id] to the column [Evidence.case_id]. *)
Definition bind_case_id (ident : json) : result unit :=
  match ident with
  | JNum _ => Ok ()
  | _ => if fk_other ident then Ok () else Raise DBAPIError
  end.
End persistence.

(** [Evidence.query.filter_by(case_id=case_id).all()]. *)
Definition evidence_of (w : World) (i : Z) : list Evidence.t :=
  List.filter (fun e => bool_decide (Evidence.case_id e = i)) (evidences w).

(** [db.session.delete(case)] followed by [commit]: the relationship
    [evidences] has [cascade="all, delete"], so the rows it loads go with
    the case. *)
Definition session_delete_case (w : World) (c : Case.t) : World :=
  {| users := users w;
     cases := List.filter (fun c' => negb (bool_decide (Case.id c' = Case.id c))) (cases w);
     suspects := suspects w;
     evidences := List.filter (fun e => negb (bool_decide (Evidence.case_id e = Case.id c)))
                              (evidences w);
     ml_model_pkl := ml_model_pkl w |}.

(** ** Case management *)

Section handlers.
Context `{Externals}.

Definition add_case (w : World) (data : json) : outcome * World :=
  if negb (truthy data) then
    (Resp 200 (jsonify1 "error" "No JSON received"), w)
  else
    match
      (v1 ←r py_get data "crime_type";
       v2 ←r py_get data "location";
       v3 ←r py_get data "time_of_day";
       c1 ←r bind_text v1;
       c2 ←r bind_text v2;
       c3 ←r bind_text v3;
       Ok {| Case.id := fresh_id (Case.id <$> cases w);
             Case.crime_type := c1;
             Case.location := c2;
             Case.time_of_day := c3;
             Case.status := SText "Open" |})
    with
    | Ok case =>
        (Resp 200 (jsonify1 "message" "Case added successfully"),
         set_cases w (cases w ++ [case]))
    | Raise e => (Unhandled e, w)
    end.

Definition delete_case (w : World) (case_id : Z) : outcome * World :=
  match find_case w case_id with
  | None => (Resp 200 (jsonify1 "error" "Case not found"), w)
  | Some case =>
      (Resp 200 (jsonify1 "message" "Case deleted successfully"),
       session_delete_case w case)
  end.

(** ** Evidence management *)

Definition add_evidence (w : World) (data : json) : outcome * World :=
  if negb (truthy data) then
    (Resp 400 (jsonify1 "error" "No data provided"), w)
  else
    match
      (case_id ←r py_get data "case_id";
       evidence_type ←r py_get data "evidence_type";
       description ←r py_get data "description";
       Ok (case_id, evidence_type, description))
    with
    | Raise e => (Unhandled e, w)
    | Ok (case_id, evidence_type, description) =>
        if negb (truthy case_id) then
          (Resp 400 (jsonify1 "error" "case_id is required"), w)
        else
          match Case_query_get w case_id with
          | Raise e => (Unhandled e, w)
          | Ok None => (Resp 404 (jsonify1 "error" "Case not found"), w)
          | Ok (Some case) =>
              match
                (_ ←r bind_case_id case_id;
                 c1 ←r bind_text evidence_type;
                 c2 ←r bind_text description;
                 Ok {| Evidence.id := fresh_id (Evidence.id <$> evidences w);
                       Evidence.case_id := Case.id case;
                       Evidence.evidence_type := c1;
                       Evidence.description := c2 |})
              with
              | Ok new_evidence =>
                  (Resp 200 (jsonify1 "message" "Evidence added successfully"),
                   set_evidences w (evidences w ++ [new_evidence]))
              | Raise e => (Unhandled e, w)
              end
          end
    end.

Definition evidence_dict (e : Evidence.t) : json :=
  JObj (<["id" := JNum (Evidence.id e)]>
        (<["case_id" := JNum (Evidence.case_id e)]>
         (<["evidence_type" := colval_json (Evidence.evidence_type e)]>
          (<["description" := colval_json (Evidence.description e)]> ∅)))).

Definition view_evidence (w : World) (case_id : Z) : outcome * World :=
  (Resp 200 (JArr (evidence_dict <$> evidence_of w case_id)), w).
End handlers.

(** ** ML training *)

(** [LabelEncoder().fit(y)] on a column of strings:
    [classes_ = sorted(set(y))]. *)
Definition fit (y : list string) : LabelEncoder :=
  merge_sort String.le (remove_dups y).

(** The position of [s] in [classes_]. *)
Fixpoint index_of (s : string) (classes : list string) : option Z :=
  match classes with
  | [] => None
  | c :: cs => if decide (c = s) then Some 0 else Z.succ <$> index_of s cs
  end.

(** [le.fit_transform(y)]: fit, then look every value of the column up. *)
Definition fit_transform (y : list string) : LabelEncoder * option (list Z) :=
  let le := fit y in
  (le, mapM (fun s => index_of s le) y).

Section ml.
Context `{Externals}.

(** [le.transform([v])[0]]: a string never seen by [fit] raises. *)
Definition transform (le : LabelEncoder) (v : json) : result Z :=
  match v with
  | JStr s => match index_of s le with
              | Some i => Ok i
              | None => Raise ValueError
              end
  | _ => match transform_other le v with
         | Some i => Ok i
         | None => Raise ValueError
         end
  end.

(** [train_model()], with the rows of [training_data.csv] as [data]. *)
Definition train_model (w : World) (data : list Row) : result World :=
  let '(le_crime, x1) := fit_transform (row_crime_type <$> data) in
  let '(le_location, x2) := fit_transform (row_location <$> data) in
  let '(le_time, x3) := fit_transform (row_time_of_day <$> data) in
  match x1, x2, x3 with
  | Some x1, Some x2, Some x3 =>
      let X := zip (zip x1 x2) x3 in
      let y := row_suspect <$> data in
      match rf_fit X y with
      | Some model =>
          Ok (set_ml_model_pkl w
                (Some {| model := model; le_crime := le_crime;
                         le_location := le_location; le_time := le_time |}))
      | None => Raise ValueError
      end
  | _, _, _ => Raise KeyError
  end.

(** ** ML suspect prediction *)

(** The body of the [try] block of [predict_suspect]. *)
Definition input_data (b : Bundle) (data : json) : result (Z * Z * Z) :=
  v1 ←r py_getitem data "crime_type";
  x1 ←r transform (le_crime b) v1;
  v2 ←r py_getitem data "location";
  x2 ←r transform (le_location b) v2;
  v3 ←r py_getitem data "time_of_day";
  x3 ←r transform (le_time b) v3;
  Ok (x1, x2, x3).

Definition predict_suspect (w : World) (data : json) : outcome * World :=
  match ml_model_pkl w with
  | None => (Resp 200 (jsonify1 "error" "ML model not trained"), w)
  | Some b =>
      match input_data b data with
      | Raise _ => (Resp 200 (jsonify1 "error" "Invalid input values"), w)
      | Ok (x1, x2, x3) =>
          (Resp 200 (jsonify1 "suspect_likely" (predict (model b) x1 x2 x3)), w)
      end
  end.
End ml.

(** ** The remaining endpoints *)

Definition set_users (w : World) (l : list User.t) : World :=
  {| users := l; cases := cases w; suspects := suspects w;
     evidences := evidences w; ml_model_pkl := ml_model_pkl w |}.

Definition set_suspects (w : World) (l : list Suspect.t) : World :=
  {| users := users w; cases := cases w; suspects := l;
     evidences := evidences w; ml_model_pkl := ml_model_pkl w |}.

#[global] Instance colval_eq_dec : EqDecision colval.
Proof. solve_decision. Defined.

(** [Suspect.query.get(i)] and [Evidence.query.get(i)]. *)
Definition find_suspect (w : World) (i : Z) : option Suspect.t :=
  List.find (fun s => bool_decide (Suspect.id s = i)) (suspects w).

Definition find_evidence (w : World) (i : Z) : option Evidence.t :=
  List.find (fun e => bool_decide (Evidence.id e = i)) (evidences w).

(** The constraint [unique=True] on [User.username]: a value that some row
    already holds is refused; NULLs never collide. *)
Definition username_taken (w : World) (u : colval) : bool :=
  match u with
  | SNull => false
  | _ => bool_decide (u ∈ User.username <$> users w)
  end.

Section more_handlers.
Context `{Externals}.

(** *** User management *)

Definition register (w : World) (data : json) : outcome * World :=
  match
    (v1 ←r py_getitem data "username";
     v2 ←r py_getitem data "password";
     v3 ←r py_getitem data "role";
     c1 ←r bind_text v1;
     c2 ←r bind_text v2;
     c3 ←r bind_text v3;
     if username_taken w c1 then Raise DBAPIError
     else Ok {| User.id := fresh_id (User.id <$> users w);
                User.username := c1;
                User.password := c2;
                User.role := c3 |})
  with
  | Ok user =>
      (Resp 200 (jsonify1 "message" "User registered successfully"),
       set_users w (users w ++ [user]))
  | Raise e => (Unhandled e, w)
  end.

(** *** Suspect management *)

Definition add_suspect (w : World) (data : json) : outcome * World :=
  match
    (v1 ←r py_getitem data "name";
     v2 ←r py_getitem data "criminal_history";
     c1 ←r bind_text v1;
     c2 ←r bind_text v2;
     Ok {| Suspect.id := fresh_id (Suspect.id <$> suspects w);
           Suspect.name := c1;
           Suspect.criminal_history := c2 |})
  with
  | Ok suspect =>
      (Resp 200 (jsonify1 "message" "Suspect added successfully"),
       set_suspects w (suspects w ++ [suspect]))
  | Raise e => (Unhandled e, w)
  end.

Definition delete_suspect (w : World) (suspect_id : Z) : outcome * World :=
  match find_suspect w suspect_id with
  | None => (Resp 200 (jsonify1 "error" "Suspect not found"), w)
  | Some suspect =>
      (Resp 200 (jsonify1 "message" "Suspect deleted successfully"),
       set_suspects w
         (List.filter
            (fun s => negb (bool_decide (Suspect.id s = Suspect.id suspect)))
            (suspects w)))
  end.

(** *** Evidence and cases, continued *)

Definition delete_evidence (w : World) (evidence_id : Z) : outcome * World :=
  match find_evidence w evidence_id with
  | None => (Resp 200 (jsonify1 "error" "Evidence not found"), w)
  | Some evidence =>
      (Resp 200 (jsonify1 "message" "Evidence deleted successfully"),
       set_evidences w
         (List.filter
            (fun e => negb (bool_decide (Evidence.id e = Evidence.id evidence)))
            (evidences w)))
  end.

(** One entry of [evidence_list] in [view_cases]. *)
Definition evidence_item (e : Evidence.t) : json :=
  JObj (<["id" := JNum (Evidence.id e)]>
        (<["evidence_type" := colval_json (Evidence.evidence_type e)]>
         (<["description" := colval_json (Evidence.description e)]> ∅))).

(** One entry of [result] in [view_cases]; [c.evidences] is the relationship:
    the evidence rows whose [case_id] is [c.id]. *)
Definition case_dict (w : World) (c : Case.t) : json :=
  JObj (<["id" := JNum (Case.id c)]>
        (<["crime_type" := colval_json (Case.crime_type c)]>
         (<["location" := colval_json (Case.location c)]>
          (<["time_of_day" := colval_json (Case.time_of_day c)]>
           (<["status" := colval_json (Case.status c)]>
            (<["evidence" := JArr (evidence_item <$> evidence_of w (Case.id c))]>
             ∅)))))).

Definition view_cases (w : World) : outcome * World :=
  (Resp 200 (JArr (case_dict w <$> cases w)), w).

(** *** Report *)

Definition count {A} (l : list A) : json := JNum (Z.of_nat (length l)).

Definition open_cases (w : World) : list Case.t :=
  List.filter (fun c => bool_decide (Case.status c = SText "Open")) (cases w).

Definition report (w : World) : outcome * World :=
  (Resp 200
     (JObj (<["total_cases" := count (cases w)]>
            (<["open_cases" := count (open_cases w)]>
             (<["total_suspects" := count (suspects w)]>
              (<["total_evidence" := count (evidences w)]> ∅))))),
   w).

(** *** Main *)

(** The start-up block: the model is trained only when [ml_model.pkl] is
    absent; [data] holds the rows of [training_data.csv]. *)
Definition main (w : World) (data : list Row) : result World :=
  match ml_model_pkl w with
  | None => train_model w data
  | Some _ => Ok w
  end.

(** *** Routing *)

(** The rules registered with [@app.route], but for ['/'], which renders a
    template. *)
Inductive route : Type :=
| POST_register (data : json)
| POST_add_case (data : json)
| GET_view_cases
| DELETE_delete_case (case_id : Z)
| POST_add_suspect (data : json)
| DELETE_delete_suspect (suspect_id : Z)
| POST_add_evidence (data : json)
| GET_view_evidence (case_id : Z)
| DELETE_delete_evidence (evidence_id : Z)
| POST_predict_suspect (data : json)
| GET_report.

Definition app (w : World) (r : route) : outcome * World :=
  match r with
  | POST_register data => register w data
  | POST_add_case data => add_case w data
  | GET_view_cases => view_cases w
  | DELETE_delete_case case_id => delete_case w case_id
  | POST_add_suspect data => add_suspect w data
  | DELETE_delete_suspect suspect_id => delete_suspect w suspect_id
  | POST_add_evidence data => add_evidence w data
  | GET_view_evidence case_id => view_evidence w case_id
  | DELETE_delete_evidence evidence_id => delete_evidence w evidence_id
  | POST_predict_suspect data => predict_suspect w data
  | GET_report => report w
  end.

(** The store after a sequence of requests, served one after the other. *)
Fixpoint serve (w : World) (rs : list route) : World :=
  match rs with
  | [] => w
  | r :: rs => serve (app w r).2 rs
  end.
End more_handlers.

(** ** Sample data *)

(** Libraries that refuse every value the handlers do not anticipate, and a
    classifier that answers with the first label it was shown. *)
Definition strict_externals : Externals :=
  {| bind_other := fun _ => None;
     ident_other := fun _ => None;
     fk_other := fun _ => false;
     transform_other := fun _ _ => None;
     rf_fit := fun _ y =>
       match y with
       | [] => None
       | l :: _ => Some {| predict := fun _ _ _ => l |}
       end |}.

Definition empty_world : World :=
  {| users := []; cases := []; suspects := []; evidences := [];
     ml_model_pkl := None |}.

Definition theft_case : Case.t :=
  {| Case.id := 1; Case.crime_type := SText "theft";
     Case.location := SText "downtown"; Case.time_of_day := SText "night";
     Case.status := SText "Open" |}.

Definition fraud_case : Case.t :=
  {| Case.id := 2; Case.crime_type := SText "fraud";
     Case.location := SText "harbour"; Case.time_of_day := SText "day";
     Case.status := SText "Open" |}.

(** Two cases; two pieces of evidence on the first, one on the second. *)
Definition sample_world : World :=
  {| users := [];
     cases := [theft_case; fraud_case];
     suspects := [];
     evidences :=
       [ {| Evidence.id := 1; Evidence.case_id := 1;
            Evidence.evidence_type := SText "fingerprint";
            Evidence.description := SText "glass" |};
         {| Evidence.id := 2; Evidence.case_id := 2;
            Evidence.evidence_type := SText "ledger";
            Evidence.description := SNull |};
         {| Evidence.id := 3; Evidence.case_id := 1;
            Evidence.evidence_type := SText "footprint";
            Evidence.description := SText "mud" |} ];
     ml_model_pkl := None |}.

(** The three rows of a small [training_data.csv]. *)
Definition training_rows : list Row :=
  [ {| row_crime_type := "theft"; row_location := "downtown";
       row_time_of_day := "night"; row_suspect := "S1" |};
    {| row_crime_type := "assault"; row_location := "harbour";
       row_time_of_day := "day"; row_suspect := "S2" |};
    {| row_crime_type := "theft"; row_location := "harbour";
       row_time_of_day := "night"; row_suspect := "S1" |} ].

Definition sample_bundle : Bundle :=
  {| model := {| predict := fun _ _ _ => "S1" |};
     le_crime := ["assault"; "theft"];
     le_location := ["downtown"; "harbour"];
     le_time := ["day"; "night"] |}.

Definition trained_world : World :=
  set_ml_model_pkl empty_world (Some sample_bundle).

(** A request with all three fields. *)
Definition request (crime_type location time_of_day : string) : json :=
  JObj (<["crime_type" := JStr crime_type]>
        (<["location" := JStr location]>
         (<["time_of_day" := JStr time_of_day]> ∅))).

(** The bodies and the requests of a short session. *)
Definition user_body : gmap string json :=
  <["username" := JStr "a"]>
    (<["password" := JStr "p"]> (<["role" := JStr "admin"]> ∅)).

Definition evidence_body : gmap string json :=
  <["case_id" := JNum 1]>
    (<["evidence_type" := JStr "fingerprint"]>
       (<["description" := JStr "glass"]> ∅)).

Definition suspect_body : gmap string json :=
  <["name" := JStr "J. Doe"]> (<["criminal_history" := JStr "none"]> ∅).

Definition scenario : list route :=
  [ POST_register (JObj user_body);
    POST_register (JObj user_body);
    POST_add_case (request "theft" "downtown" "night");
    POST_add_evidence (JObj evidence_body);
    POST_add_suspect (JObj suspect_body);
    GET_report;
    DELETE_delete_case 1 ].

(** The rows of [training_rows] in another order, one of them twice. *)
Definition training_rows_shuffled : list Row :=
  [ {| row_crime_type := "assault"; row_location := "harbour";
       row_time_of_day := "day"; row_suspect := "S2" |};
    {| row_crime_type := "theft"; row_location := "harbour";
       row_time_of_day := "night"; row_suspect := "S1" |};
    {| row_crime_type := "theft"; row_location := "downtown";
       row_time_of_day := "night"; row_suspect := "S1" |};
    {| row_crime_type := "assault"; row_location := "harbour";
       row_time_of_day := "day"; row_suspect := "S2" |} ].

(** ** Properties stated by the specification *)

(** [le] maps the distinct strings of the column [col] one-to-one onto
    [0, k), k the number of distinct strings, in lexicographic order. *)
Definition lex_bijection (col : list string) (le : LabelEncoder) : Prop :=
  let k := Z.of_nat (length (remove_dups col)) in
  (∀ s, s ∈ col ↔ is_Some (index_of s le))
  ∧ (∀ s i, index_of s le = Some i → 0 ≤ i < k)
  ∧ (∀ i, 0 ≤ i < k → ∃ s, index_of s le = Some i)
  ∧ (∀ s1 s2 i, index_of s1 le = Some i → index_of s2 le = Some i → s1 = s2)
  ∧ (∀ s1 s2 i1 i2,
       index_of s1 le = Some i1 → index_of s2 le = Some i2 →
       (i1 < i2 ↔ String.ltb s1 s2 = true)).

(** The field [v] of a request is a string that [fit] never saw. *)
Definition unseen_category (le : LabelEncoder) (v : option json) : Prop :=
  ∃ s, v = Some (JStr s) ∧ s ∉ le.

(** ** Properties of the store *)

(** Primary keys are positive and unique within their table, and every
    evidence row refers to a case that exists. *)
Definition store_integrity (w : World) : Prop :=
  NoDup (Case.id <$> cases w)
  ∧ NoDup (Evidence.id <$> evidences w)
  ∧ NoDup (Suspect.id <$> suspects w)
  ∧ (∀ c, c ∈ cases w → 1 ≤ Case.id c)
  ∧ (∀ e, e ∈ evidences w →
          ∃ c, c ∈ cases w ∧ Case.id c = Evidence.case_id e).

(** User ids are unique, and so are the usernames that are not NULL. *)
Definition users_integrity (w : World) : Prop :=
  NoDup (User.id <$> users w)
  ∧ NoDup (List.filter (fun u => negb (bool_decide (u = SNull)))
                       (User.username <$> users w)).

Definition all_open (w : World) : Prop :=
  ∀ c, c ∈ cases w → Case.status c = SText "Open".

(** The entry [k] of the JSON object a handler answered with. *)
Definition body_field (k : string) (o : outcome) : option json :=
  match o with
  | Resp _ (JObj d) => d !! k
  | _ => None
  end.


(** ** Facts about the store *)

Lemma find_case_Some w i c :
  find_case w i = Some c → c ∈ cases w ∧ Case.id c = i.
Proof.
  unfold find_case. intros Hf. apply find_some in Hf as [Hin Hid].
  split; [by apply list_elem_of_In | by apply bool_decide_eq_true in Hid].
Qed.

Lemma find_case_None w i :
  find_case w i = None ↔ ∀ c, c ∈ cases w → Case.id c ≠ i.
Proof.
  unfold find_case. split.
  - intros Hf c Hin Hid.
    pose proof (find_none _ _ Hf c (proj1 (list_elem_of_In _ _) Hin)) as Hb.
    simpl in Hb. apply bool_decide_eq_false in Hb. done.
  - intros Hall. destruct (List.find _ _) as [c|] eqn:Hf; [|done].
    apply find_some in Hf as [Hin Hid].
    apply bool_decide_eq_true in Hid.
    exfalso. apply (Hall c); [by apply list_elem_of_In | done].
Qed.

Lemma find_case_elem_of w c :
  c ∈ cases w → ∃ c', find_case w (Case.id c) = Some c'.
Proof.
  intros Hin. destruct (find_case w (Case.id c)) as [c'|] eqn:Hf; [by eexists|].
  exfalso. by apply (proj1 (find_case_None w _) Hf c).
Qed.

Lemma filter_split_length {A} (f : A → bool) (l : list A) :
  (length (List.filter (fun x => negb (f x)) l) + length (List.filter f l)
   = length l)%nat.
Proof.
  induction l as [|x l IH]; simpl; [done|].
  destruct (f x); simpl; lia.
Qed.

Lemma evidence_of_session_delete w c :
  evidence_of (session_delete_case w c) (Case.id c) = [].
Proof.
  unfold evidence_of, session_delete_case; simpl.
  induction (evidences w) as [|e l IH]; simpl; [done|].
  destruct (bool_decide (Evidence.case_id e = Case.id c)) eqn:Hb; simpl; [done|].
  by rewrite Hb.
Qed.

Lemma find_case_session_delete w c :
  find_case (session_delete_case w c) (Case.id c) = None.
Proof.
  apply find_case_None. intros c' Hin Hid.
  unfold session_delete_case in Hin; simpl in Hin.
  apply list_elem_of_In, filter_In in Hin as [_ Hb].
  apply negb_true_iff, bool_decide_eq_false in Hb. done.
Qed.

(** ** Case and evidence lifecycle *)

(** C1. Deleting a case that exists succeeds, removes the case and every
    evidence record that references it (exactly those: the table shrinks by
    the N records of the case and keeps the others), and a later
    [view_evidence] for that id returns the empty list. *)
Theorem delete_case_cascade (w : World) (c : Case.t) :
  c ∈ cases w →
  let case_id := Case.id c in
  let N := length (evidence_of w case_id) in
  let w' := (delete_case w case_id).2 in
  (delete_case w case_id).1
    = Resp 200 (jsonify1 "message" "Case deleted successfully")
  ∧ find_case w' case_id = None
  ∧ (∀ e, e ∈ evidences w' ↔ e ∈ evidences w ∧ Evidence.case_id e ≠ case_id)
  ∧ (length (evidences w') + N = length (evidences w))%nat
  ∧ view_evidence w' case_id = (Resp 200 (JArr []), w').
Proof.
  intros Hin case_id N w'. subst N w'.
  destruct (find_case_elem_of w c Hin) as [c' Hf].
  destruct (find_case_Some _ _ _ Hf) as [_ Hid].
  fold case_id in Hf, Hid.
  unfold delete_case. rewrite Hf. simpl.
  split; [done|]. rewrite <- Hid.
  split; [apply find_case_session_delete|].
  split.
  { intros e. rewrite !list_elem_of_In. rewrite filter_In.
    rewrite negb_true_iff, bool_decide_eq_false. done. }
  split.
  { unfold evidence_of. apply filter_split_length. }
  unfold view_evidence. by rewrite evidence_of_session_delete.
Qed.

Lemma delete_case_cascade_witness :
  (delete_case sample_world 1).1
    = Resp 200 (jsonify1 "message" "Case deleted successfully")
  ∧ length (evidence_of sample_world 1) = 2%nat
  ∧ length (evidences (delete_case sample_world 1).2) = 1%nat
  ∧ view_evidence (delete_case sample_world 1).2 1
    = (Resp 200 (JArr []), (delete_case sample_world 1).2).
Proof.
  assert (Hin : theft_case ∈ cases sample_world) by (simpl; left).
  destruct (delete_case_cascade sample_world theft_case Hin)
    as (Hr & _ & _ & _ & Hv).
  split; [exact Hr|]. split; [reflexivity|]. split; [reflexivity|]. exact Hv.
Defined.

Lemma truthy_JObj d : d ≠ ∅ → truthy (JObj d) = true.
Proof.
  intros Hd. simpl. apply negb_true_iff, bool_decide_eq_false. done.
Qed.

Lemma rbind_Ok {A B} (m : result A) (k : A → result B) b :
  rbind m k = Ok b → ∃ a, m = Ok a ∧ k a = Ok b.
Proof. destruct m as [a|e]; simpl; [eauto | discriminate]. Qed.

(** C2. For a non-empty request body, every case [add_case] leaves in
    the table that was not there before has status ["Open"]; and when the
    body is a dict whose three fields the text columns accept, the case is
    created with status ["Open"], whatever else (a ["status"] entry
    included) the dict holds. *)
Theorem add_case_status_open `{Externals} (w : World) (data : json) :
  truthy data = true →
  (∀ c, c ∈ cases (add_case w data).2 →
        c ∈ cases w ∨ Case.status c = SText "Open")
  ∧ (∀ d c1 c2 c3,
        data = JObj d →
        bind_text (default JNull (d !! "crime_type")) = Ok c1 →
        bind_text (default JNull (d !! "location")) = Ok c2 →
        bind_text (default JNull (d !! "time_of_day")) = Ok c3 →
        let case :=
          {| Case.id := fresh_id (Case.id <$> cases w);
             Case.crime_type := c1; Case.location := c2;
             Case.time_of_day := c3; Case.status := SText "Open" |} in
        add_case w data
        = (Resp 200 (jsonify1 "message" "Case added successfully"),
           set_cases w (cases w ++ [case]))).
Proof.
  intros Ht. unfold add_case. rewrite Ht. simpl. split.
  - intros c.
    destruct (rbind (py_get data "crime_type") _) as [case|e] eqn:Hm; simpl;
      [|by left].
    intros Hin. apply elem_of_app in Hin as [Hin|Hin]; [by left|right].
    apply list_elem_of_singleton in Hin. subst c.
    repeat (apply rbind_Ok in Hm as (? & _ & Hm)).
    by inversion Hm.
  - intros d c1 c2 c3 -> H1 H2 H3. simpl. rewrite H1, H2, H3. done.
Qed.

Lemma add_case_status_open_witness :
  let data :=
    JObj (<["crime_type" := JStr "theft"]>
          (<["location" := JStr "downtown"]>
           (<["time_of_day" := JStr "night"]>
            (<["status" := JStr "Closed"]> ∅)))) in
  truthy data = true
  ∧ @add_case strict_externals empty_world data
    = (Resp 200 (jsonify1 "message" "Case added successfully"),
       set_cases empty_world [theft_case]).
Proof.
  intros data.
  assert (Ht : truthy data = true) by (vm_compute; reflexivity).
  split; [exact Ht|].
  destruct (@add_case_status_open strict_externals empty_world data Ht)
    as [_ Hmk].
  apply (Hmk _ (SText "theft") (SText "downtown") (SText "night") eq_refl);
    vm_compute; reflexivity.
Defined.

(** C3, as stated, fails: a request with [case_id] 0, which names no case,
    is answered with 400 "case_id is required", not with the not-found
    response. *)
Lemma add_evidence_case_id_zero :
  let data := JObj (<["case_id" := JNum 0]>
                    (<["evidence_type" := JStr "fingerprint"]> ∅)) in
  @Case_query_get strict_externals sample_world (JNum 0) = Ok None
  ∧ @add_evidence strict_externals sample_world data
    = (Resp 400 (jsonify1 "error" "case_id is required"), sample_world)
  ∧ (@add_evidence strict_externals sample_world data).1
    ≠ Resp 404 (jsonify1 "error" "Case not found").
Proof.
  intros data. split; [reflexivity|].
  assert (He : @add_evidence strict_externals sample_world data
               = (Resp 400 (jsonify1 "error" "case_id is required"), sample_world))
    by (vm_compute; reflexivity).
  split; [exact He|]. rewrite He. simpl. intros Heq. by inversion Heq.
Qed.

(** C3, amended. For a request whose body is a non-empty dict: when
    [case_id] is missing or falsy the answer is 400 "case_id is required";
    when [case_id] is truthy and the lookup finds no case the answer is 404
    "Case not found"; in both cases nothing is stored. *)
Theorem add_evidence_unresolved_case `{Externals} (w : World) (d : gmap string json) :
  d ≠ ∅ →
  let case_id := default JNull (d !! "case_id") in
  (truthy case_id = false →
     add_evidence w (JObj d)
     = (Resp 400 (jsonify1 "error" "case_id is required"), w))
  ∧ (truthy case_id = true →
     Case_query_get w case_id = Ok None →
     add_evidence w (JObj d)
     = (Resp 404 (jsonify1 "error" "Case not found"), w)).
Proof.
  intros Hd case_id. unfold add_evidence.
  rewrite (truthy_JObj d Hd). simpl. fold case_id. split.
  - intros ->. done.
  - intros -> ->. done.
Qed.

Lemma add_evidence_unresolved_case_witness :
  @add_evidence strict_externals sample_world
    (JObj (<["case_id" := JNum 7]> (<["evidence_type" := JStr "fingerprint"]> ∅)))
  = (Resp 404 (jsonify1 "error" "Case not found"), sample_world)
  ∧ @add_evidence strict_externals sample_world
      (JObj (<["evidence_type" := JStr "fingerprint"]> ∅))
    = (Resp 400 (jsonify1 "error" "case_id is required"), sample_world).
Proof.
  split.
  - refine (proj2 (@add_evidence_unresolved_case strict_externals sample_world
                     (<["case_id" := JNum 7]> (<["evidence_type" := JStr "fingerprint"]> ∅)) _) _ _).
    + apply insert_non_empty.
    + reflexivity.
    + reflexivity.
  - refine (proj1 (@add_evidence_unresolved_case strict_externals sample_world
                     (<["evidence_type" := JStr "fingerprint"]> ∅) _) _).
    + apply insert_non_empty.
    + vm_compute; reflexivity.
Defined.

(** C7. [delete_case] on an absent id answers with status 200 and a body
    with an ["error"] key, while [add_evidence] answers its error paths with
    HTTP error statuses: 400 for a missing body and for a missing
    [case_id], 404 for a case that is not found. *)
Theorem error_status_convention `{Externals} (w : World) :
  (∀ case_id,
     (∀ c, c ∈ cases w → Case.id c ≠ case_id) →
     ∃ body, delete_case w case_id = (Resp 200 body, w) ∧ has_key "error" body)
  ∧ (∀ data,
     truthy data = false →
     ∃ body, add_evidence w data = (Resp 400 body, w) ∧ has_key "error" body)
  ∧ (∀ d,
     d ≠ ∅ → truthy (default JNull (d !! "case_id")) = false →
     ∃ body, add_evidence w (JObj d) = (Resp 400 body, w) ∧ has_key "error" body)
  ∧ (∀ d,
     d ≠ ∅ → truthy (default JNull (d !! "case_id")) = true →
     Case_query_get w (default JNull (d !! "case_id")) = Ok None →
     ∃ body, add_evidence w (JObj d) = (Resp 404 body, w) ∧ has_key "error" body).
Proof.
  assert (Hk : ∀ msg, has_key "error" (jsonify1 "error" msg)).
  { intros msg. simpl. rewrite lookup_singleton_eq. by eexists. }
  repeat split.
  - intros case_id Habs. apply find_case_None in Habs.
    unfold delete_case. rewrite Habs. eauto.
  - intros data Hf. unfold add_evidence. rewrite Hf. simpl. eauto.
  - intros d Hd Hf. unfold add_evidence.
    rewrite (truthy_JObj d Hd). simpl. rewrite Hf. simpl. eauto.
  - intros d Hd Ht Hq. unfold add_evidence.
    rewrite (truthy_JObj d Hd). simpl. rewrite Ht. simpl. rewrite Hq. eauto.
Qed.

Lemma error_status_convention_witness :
  (∃ body, delete_case sample_world 7 = (Resp 200 body, sample_world)
           ∧ has_key "error" body)
  ∧ (∃ body, @add_evidence strict_externals sample_world JNull
             = (Resp 400 body, sample_world) ∧ has_key "error" body)
  ∧ (∃ body, @add_evidence strict_externals sample_world
               (JObj (<["evidence_type" := JStr "fingerprint"]> ∅))
             = (Resp 400 body, sample_world) ∧ has_key "error" body)
  ∧ (∃ body, @add_evidence strict_externals sample_world
               (JObj (<["case_id" := JNum 7]> ∅))
             = (Resp 404 body, sample_world) ∧ has_key "error" body).
Proof.
  destruct (@error_status_convention strict_externals sample_world)
    as (Hdel & Hnone & Hreq & Hnf).
  split; [|split; [|split]].
  - apply Hdel. intros c Hin.
    apply list_elem_of_In in Hin. simpl in Hin.
    destruct Hin as [<-|[<-|[]]]; simpl; lia.
  - apply Hnone. reflexivity.
  - apply Hreq; [apply insert_non_empty | vm_compute; reflexivity].
  - apply Hnf; [apply insert_non_empty | reflexivity | reflexivity].
Defined.

(** ** Facts about label encoding *)

Lemma index_of_lookup s l i :
  index_of s l = Some i → 0 ≤ i ∧ l !! Z.to_nat i = Some s.
Proof.
  revert i. induction l as [|c cs IH]; intros i; simpl; [done|].
  destruct (decide (c = s)) as [->|Hne].
  - intros [= <-]. done.
  - destruct (index_of s cs) as [j|]; simpl; [|done].
    intros [= <-]. destruct (IH j eq_refl) as [Hj Hl].
    split; [lia|]. rewrite Z2Nat.inj_succ by done. done.
Qed.

Lemma lookup_index_of s l n :
  NoDup l → l !! n = Some s → index_of s l = Some (Z.of_nat n).
Proof.
  revert n. induction l as [|c cs IH]; intros n Hnd Hl; [done|].
  apply NoDup_cons in Hnd as [Hc Hnd]. simpl.
  destruct n as [|n]; simpl in Hl.
  - injection Hl as ->. by rewrite decide_True.
  - rewrite decide_False.
    + rewrite (IH n Hnd Hl). simpl. f_equal. lia.
    + intros ->. apply Hc. by eapply list_elem_of_lookup_2.
Qed.

Lemma index_of_is_Some s l : s ∈ l ↔ is_Some (index_of s l).
Proof.
  split.
  - induction l as [|c cs IH]; [by intros ?%elem_of_nil|].
    intros Hin. simpl. destruct (decide (c = s)); [by eexists|].
    apply elem_of_cons in Hin as [->|Hin]; [done|].
    destruct (IH Hin) as [j ->]. by eexists.
  - intros [i Hi]. apply index_of_lookup in Hi as [_ Hl].
    by eapply list_elem_of_lookup_2.
Qed.

Lemma StronglySorted_lookup_lt {A} (R : relation A) l n1 n2 x1 x2 :
  StronglySorted R l → l !! n1 = Some x1 → l !! n2 = Some x2 →
  (n1 < n2)%nat → R x1 x2.
Proof.
  intros Hs. revert n1 n2.
  induction Hs as [|a l Hs IH Hall]; intros n1 n2 H1 H2 Hlt; [done|].
  destruct n2 as [|n2]; [lia|]. simpl in H2.
  destruct n1 as [|n1]; simpl in H1.
  - injection H1 as ->.
    rewrite List.Forall_forall in Hall. apply Hall.
    apply list_elem_of_In. by eapply list_elem_of_lookup_2.
  - apply (IH n1 n2); [done..|lia].
Qed.

Lemma string_compare_refl s : String.compare s s = Eq.
Proof.
  pose proof (String.compare_antisym s s) as Ha.
  destruct (String.compare s s) eqn:Hc; [done|..]; simpl in Ha; discriminate.
Qed.

Lemma string_ltb_le s1 s2 :
  String.ltb s1 s2 = true ↔ String.le s1 s2 ∧ s1 ≠ s2.
Proof.
  unfold String.le, String.ltb, String.leb. split.
  - intros Hlt. destruct (String.compare s1 s2) eqn:Hc; try discriminate.
    split; [done|]. intros ->. by rewrite string_compare_refl in Hc.
  - intros [Hle Hne]. destruct (String.compare s1 s2) eqn:Hc; [|done|done].
    by apply String.compare_eq_iff in Hc.
Qed.

Lemma fit_elem_of y s : s ∈ fit y ↔ s ∈ y.
Proof.
  unfold fit. rewrite merge_sort_Permutation. apply elem_of_remove_dups.
Qed.

Lemma fit_NoDup y : NoDup (fit y).
Proof.
  unfold fit. rewrite merge_sort_Permutation. apply NoDup_remove_dups.
Qed.

Lemma fit_length y : length (fit y) = length (remove_dups y).
Proof. unfold fit. by rewrite merge_sort_Permutation. Qed.

Lemma fit_sorted y : StronglySorted String.le (fit y).
Proof. unfold fit. apply StronglySorted_merge_sort; apply _. Qed.

Lemma fit_lex_bijection y : lex_bijection y (fit y).
Proof.
  pose proof (fit_NoDup y) as Hnd. pose proof (fit_sorted y) as Hs.
  unfold lex_bijection. rewrite <- fit_length. repeat split.
  - intros Hin. by apply index_of_is_Some, fit_elem_of.
  - intros Hin. by apply fit_elem_of, index_of_is_Some.
  - by apply index_of_lookup in H as [? _].
  - apply index_of_lookup in H as [Hi Hl].
    apply lookup_lt_Some in Hl. lia.
  - intros i [Hi Hk].
    destruct (lookup_lt_is_Some_2 (fit y) (Z.to_nat i)) as [s Hl]; [lia|].
    exists s. rewrite (lookup_index_of _ _ _ Hnd Hl). f_equal. lia.
  - intros s1 s2 i [_ H1]%index_of_lookup [_ H2]%index_of_lookup. congruence.
  - intros Hlt. apply index_of_lookup in H as [Hi1 H1].
    apply index_of_lookup in H0 as [Hi2 H2].
    apply string_ltb_le. split.
    + apply (StronglySorted_lookup_lt _ _ _ _ _ _ Hs H1 H2). lia.
    + intros ->. pose proof (NoDup_lookup _ _ _ _ Hnd H1 H2). lia.
  - intros [Hle Hne]%string_ltb_le.
    apply index_of_lookup in H as [Hi1 H1].
    apply index_of_lookup in H0 as [Hi2 H2].
    destruct (Z.lt_trichotomy i1 i2) as [Hlt|[->|Hgt]]; [done|congruence|].
    exfalso. apply Hne.
    apply (anti_symm String.le); [done|].
    apply (StronglySorted_lookup_lt _ _ _ _ _ _ Hs H2 H1). lia.
Qed.

(** The look-up inside [fit_transform] never fails. *)
Lemma fit_transform_codes y : is_Some (fit_transform y).2.
Proof.
  unfold fit_transform. simpl. apply mapM_is_Some, List.Forall_forall.
  intros s Hin. simpl. apply index_of_is_Some, fit_elem_of.
  by apply list_elem_of_In.
Qed.

(** [train_model] raises only when fitting the classifier does. *)
Lemma train_model_raises `{Externals} w data e :
  train_model w data = Raise e →
  ∃ X, rf_fit X (row_suspect <$> data) = None.
Proof.
  unfold train_model.
  destruct (fit_transform_codes (row_crime_type <$> data)) as [x1 H1].
  destruct (fit_transform_codes (row_location <$> data)) as [x2 H2].
  destruct (fit_transform_codes (row_time_of_day <$> data)) as [x3 H3].
  unfold fit_transform in *. simpl in H1, H2, H3. rewrite H1, H2, H3.
  destruct (rf_fit _ _) eqn:Hfit; [discriminate|]. eauto.
Qed.

(** C8. For every training dataset, the encoder fitted on each of the
    three columns is a bijection from the distinct strings of its column
    onto [0, k), k their number, that assigns the integers in lexicographic
    order; and these are the encoders [train_model] stores in the bundle. *)
Theorem label_encoders_bijective (data : list Row) :
  let fitted col := (fit_transform (col <$> data)).1 in
  lex_bijection (row_crime_type <$> data) (fitted row_crime_type)
  ∧ lex_bijection (row_location <$> data) (fitted row_location)
  ∧ lex_bijection (row_time_of_day <$> data) (fitted row_time_of_day)
  ∧ ∀ (E : Externals) (w w' : World),
      train_model w data = Ok w' →
      ∃ b, ml_model_pkl w' = Some b
           ∧ le_crime b = fitted row_crime_type
           ∧ le_location b = fitted row_location
           ∧ le_time b = fitted row_time_of_day.
Proof.
  intros fitted. subst fitted. simpl.
  split; [apply fit_lex_bijection|].
  split; [apply fit_lex_bijection|].
  split; [apply fit_lex_bijection|].
  intros E w w'. unfold train_model, fit_transform.
  destruct (mapM _ (row_crime_type <$> data)); [|discriminate].
  destruct (mapM _ (row_location <$> data)); [|discriminate].
  destruct (mapM _ (row_time_of_day <$> data)); [|discriminate].
  destruct (rf_fit _ _) as [m|]; [|discriminate].
  intros [= <-]. eexists. split; [reflexivity|]. simpl. done.
Qed.

Lemma label_encoders_bijective_witness :
  @train_model strict_externals empty_world training_rows = Ok trained_world
  ∧ lex_bijection ["theft"; "assault"; "theft"] ["assault"; "theft"]
  ∧ le_crime sample_bundle = ["assault"; "theft"].
Proof.
  assert (Ht : @train_model strict_externals empty_world training_rows
               = Ok trained_world) by (vm_compute; reflexivity).
  split; [exact Ht|].
  destruct (label_encoders_bijective training_rows) as (Hc & _ & _ & Hst).
  split; [exact Hc|].
  destruct (Hst strict_externals _ _ Ht) as (b & Hb & _).
  injection Hb as <-. reflexivity.
Defined.

(** ** Facts about prediction *)

Lemma getitem_transform_unseen `{Externals} le d k :
  unseen_category le (d !! k) →
  ∃ e, rbind (py_getitem (JObj d) k) (transform le) = Raise e.
Proof.
  intros (s & Hs & Hnot). simpl. rewrite Hs. simpl.
  destruct (index_of s le) as [j|] eqn:Hj; [|by eexists].
  exfalso. apply Hnot, index_of_is_Some. by eexists.
Qed.

Lemma input_data_unseen `{Externals} b d :
  unseen_category (le_crime b) (d !! "crime_type")
  ∨ unseen_category (le_location b) (d !! "location")
  ∨ unseen_category (le_time b) (d !! "time_of_day") →
  ∃ e, input_data b (JObj d) = Raise e.
Proof.
  intros Hu. destruct (input_data b (JObj d)) as [r|e] eqn:Hi; [|by eexists].
  exfalso. unfold input_data in Hi.
  apply rbind_Ok in Hi as (v1 & H1 & Hi). apply rbind_Ok in Hi as (x1 & T1 & Hi).
  apply rbind_Ok in Hi as (v2 & H2 & Hi). apply rbind_Ok in Hi as (x2 & T2 & Hi).
  apply rbind_Ok in Hi as (v3 & H3 & Hi). apply rbind_Ok in Hi as (x3 & T3 & Hi).
  destruct Hu as [Hu|[Hu|Hu]];
    apply getitem_transform_unseen in Hu as [e He];
    [rewrite H1 in He | rewrite H2 in He | rewrite H3 in He];
    simpl in He; congruence.
Qed.

Lemma predict_suspect_raise `{Externals} w b data e :
  ml_model_pkl w = Some b → input_data b data = Raise e →
  predict_suspect w data
  = (Resp 200 (jsonify1 "error" "Invalid input values"), w).
Proof. intros Hb He. unfold predict_suspect. by rewrite Hb, He. Qed.

Lemma jsonify1_inj k v1 v2 : jsonify1 k v1 = jsonify1 k v2 → v1 = v2.
Proof.
  unfold jsonify1. intros Heq.
  apply (f_equal (fun j => match j with JObj m => m !! k | _ => None end)) in Heq.
  rewrite !lookup_singleton_eq in Heq. congruence.
Qed.

(** ** The prediction endpoint *)

(** C4. With a bundle on disk, a request in which at least one of the three
    fields is a string the encoders never saw is answered with the JSON
    error body "Invalid input values" (a response, not a fault), and the
    tables and the bundle are left as they were. *)
Theorem predict_suspect_unseen_category `{Externals}
    (w : World) (b : Bundle) (d : gmap string json) :
  ml_model_pkl w = Some b →
  unseen_category (le_crime b) (d !! "crime_type")
  ∨ unseen_category (le_location b) (d !! "location")
  ∨ unseen_category (le_time b) (d !! "time_of_day") →
  predict_suspect w (JObj d)
  = (Resp 200 (jsonify1 "error" "Invalid input values"), w).
Proof.
  intros Hb Hu. destruct (input_data_unseen b d Hu) as [e He].
  by eapply predict_suspect_raise.
Qed.

Lemma predict_suspect_unseen_category_witness :
  @predict_suspect strict_externals trained_world
    (request "theft" "airport" "night")
  = (Resp 200 (jsonify1 "error" "Invalid input values"), trained_world).
Proof.
  apply (@predict_suspect_unseen_category strict_externals
           trained_world sample_bundle); [reflexivity|].
  right; left. exists "airport". split; [vm_compute; reflexivity|].
  intros Hin. apply list_elem_of_In in Hin. simpl in Hin.
  destruct Hin as [Heq|[Heq|[]]]; discriminate Heq.
Defined.

(** C5, as stated, fails: a request with an unseen category and a request
    that lacks a field raise different exceptions inside the [try] block
    but are answered with the very same response. *)
Lemma unseen_category_same_as_malformed :
  let unseen := request "arson" "downtown" "night" in
  let malformed := JObj (<["crime_type" := JStr "theft"]> ∅) in
  @input_data strict_externals sample_bundle unseen = Raise ValueError
  ∧ @input_data strict_externals sample_bundle malformed = Raise KeyError
  ∧ @input_data strict_externals sample_bundle JNull = Raise TypeError
  ∧ @predict_suspect strict_externals trained_world unseen
    = @predict_suspect strict_externals trained_world malformed
  ∧ @predict_suspect strict_externals trained_world unseen
    = @predict_suspect strict_externals trained_world JNull.
Proof. intros unseen malformed. repeat split; vm_compute; reflexivity. Qed.

(** C5, amended. The response for a missing bundle differs from the
    response for bad input, but every failure inside the [try] block, an
    unseen category and a malformed request alike, is answered with the
    same response. *)
Theorem prediction_error_responses `{Externals}
    (w0 w1 : World) (b : Bundle) (data0 data1 data2 : json) (e1 e2 : pyexn) :
  ml_model_pkl w0 = None →
  ml_model_pkl w1 = Some b →
  input_data b data1 = Raise e1 →
  input_data b data2 = Raise e2 →
  (predict_suspect w1 data1).1 = (predict_suspect w1 data2).1
  ∧ (predict_suspect w0 data0).1 ≠ (predict_suspect w1 data1).1.
Proof.
  intros H0 H1 He1 He2.
  rewrite (predict_suspect_raise w1 b data1 e1 H1 He1).
  rewrite (predict_suspect_raise w1 b data2 e2 H1 He2).
  split; [done|].
  unfold predict_suspect. rewrite H0. simpl.
  intros Heq. assert (Hb' : ∀ a b, Resp 200 a = Resp 200 b → a = b)
    by (intros ?? [= ->]; done).
  apply Hb', jsonify1_inj in Heq. discriminate Heq.
Qed.

Lemma prediction_error_responses_witness :
  (@predict_suspect strict_externals trained_world
     (request "arson" "downtown" "night")).1
  = (@predict_suspect strict_externals trained_world JNull).1
  ∧ (@predict_suspect strict_externals empty_world
       (request "theft" "downtown" "night")).1
    ≠ (@predict_suspect strict_externals trained_world
         (request "arson" "downtown" "night")).1.
Proof.
  apply (@prediction_error_responses strict_externals empty_world
           trained_world sample_bundle _ _ _ ValueError TypeError);
    vm_compute; reflexivity.
Defined.

(** C6. Without a bundle on disk the answer is the error "ML model not
    trained", and nothing is trained on demand: the world is unchanged and
    there is still no bundle. *)
Theorem predict_suspect_model_not_trained `{Externals} (w : World) (data : json) :
  ml_model_pkl w = None →
  (predict_suspect w data).1
  = Resp 200 (jsonify1 "error" "ML model not trained")
  ∧ (predict_suspect w data).2 = w
  ∧ ml_model_pkl (predict_suspect w data).2 = None.
Proof.
  intros Hb. unfold predict_suspect. rewrite Hb. simpl. done.
Qed.

Lemma predict_suspect_model_not_trained_witness :
  (@predict_suspect strict_externals sample_world
     (request "theft" "downtown" "night")).1
  = Resp 200 (jsonify1 "error" "ML model not trained")
  ∧ (@predict_suspect strict_externals sample_world
       (request "theft" "downtown" "night")).2 = sample_world.
Proof.
  destruct (@predict_suspect_model_not_trained strict_externals sample_world
              (request "theft" "downtown" "night") eq_refl) as (Hr & Hw & _).
  split; [exact Hr | exact Hw].
Defined.

(** C9. With a bundle on disk, whatever the request body is ([None], not a
    dict, a dict that lacks a field, any field value), the handler returns
    a response: a prediction or the body
    [{"error": "Invalid input values"}]. *)
Theorem predict_suspect_no_fault `{Externals}
    (w : World) (b : Bundle) (data : json) :
  ml_model_pkl w = Some b →
  (∃ label,
     predict_suspect w data
     = (Resp 200 (jsonify1 "suspect_likely" label), w))
  ∨ predict_suspect w data
    = (Resp 200 (jsonify1 "error" "Invalid input values"), w).
Proof.
  intros Hb. unfold predict_suspect. rewrite Hb.
  destruct (input_data b data) as [[[x1 x2] x3]|e]; [left|right];
    [by eexists | done].
Qed.

Lemma predict_suspect_no_fault_witness :
  @predict_suspect strict_externals trained_world
    (request "theft" "downtown" "night")
  = (Resp 200 (jsonify1 "suspect_likely" "S1"), trained_world)
  ∧ @predict_suspect strict_externals trained_world (JArr [JStr "theft"])
    = (Resp 200 (jsonify1 "error" "Invalid input values"), trained_world).
Proof.
  split.
  - destruct (@predict_suspect_no_fault strict_externals trained_world
                sample_bundle (request "theft" "downtown" "night") eq_refl)
      as [[label Hl]|Hr].
    + rewrite Hl. vm_compute in Hl. injection Hl as <-. reflexivity.
    + vm_compute in Hr. discriminate Hr.
  - vm_compute; reflexivity.
Defined.

(** C10. The bundle is looked for before any field of the request is read:
    without it every request body, those that would be bad input with a
    bundle included, gets the same "ML model not trained" answer, not the
    bad-input answer. *)
Theorem predict_suspect_model_check_first `{Externals} (w : World) :
  ml_model_pkl w = None →
  ∀ data,
    predict_suspect w data
    = (Resp 200 (jsonify1 "error" "ML model not trained"), w)
    ∧ predict_suspect w data = predict_suspect w JNull
    ∧ (predict_suspect w data).1
      ≠ Resp 200 (jsonify1 "error" "Invalid input values").
Proof.
  intros Hb data. unfold predict_suspect. rewrite Hb. simpl.
  repeat split. intros Heq.
  assert (Hb' : ∀ a b, Resp 200 a = Resp 200 b → a = b)
    by (intros ?? [= ->]; done).
  apply Hb', jsonify1_inj in Heq. discriminate Heq.
Qed.

Lemma predict_suspect_model_check_first_witness :
  @predict_suspect strict_externals empty_world (JObj ∅)
  = (Resp 200 (jsonify1 "error" "ML model not trained"), empty_world)
  ∧ @predict_suspect strict_externals empty_world (JArr [JNum 3])
    = (Resp 200 (jsonify1 "error" "ML model not trained"), empty_world).
Proof.
  split.
  - apply (@predict_suspect_model_check_first strict_externals empty_world
             eq_refl (JObj ∅)).
  - apply (@predict_suspect_model_check_first strict_externals empty_world
             eq_refl (JArr [JNum 3])).
Defined.

(** ** Facts about identifiers and tables *)

Lemma fresh_id_gt ids i : i ∈ ids → i < fresh_id ids.
Proof.
  unfold fresh_id. induction ids as [|j ids IH]; [by intros ?%elem_of_nil|].
  intros [->|Hin]%elem_of_cons; simpl; [lia|].
  specialize (IH Hin). lia.
Qed.


Lemma NoDup_snoc_fresh {A} (f : A → Z) (l : list A) (x : A) :
  NoDup (f <$> l) → f x = fresh_id (f <$> l) → NoDup (f <$> (l ++ [x])%list).
Proof.
  intros Hnd Hx. rewrite fmap_app. apply NoDup_app. split; [done|]. split.
  - intros i Hi [->|[]%elem_of_nil]%elem_of_cons.
    apply fresh_id_gt in Hi. lia.
  - simpl. apply NoDup_singleton.
Qed.


Lemma elem_of_filter_bool {A} (g : A → bool) (l : list A) x :
  x ∈ List.filter g l ↔ x ∈ l ∧ g x = true.
Proof. rewrite !list_elem_of_In. apply filter_In. Qed.

(** In a table with unique keys, exactly one row has the key of a row of
    the table. *)
Lemma filter_key_length {A} (f : A → Z) (l : list A) (x : A) :
  NoDup (f <$> l) → x ∈ l →
  length (List.filter (fun y => bool_decide (f y = f x)) l) = 1%nat.
Proof.
  induction l as [|y l IH]; [by intros _ ?%elem_of_nil|].
  simpl. intros [Hy Hnd]%NoDup_cons Hin.
  destruct (bool_decide (f y = f x)) eqn:Hb.
  - apply bool_decide_eq_true in Hb. simpl. f_equal.
    apply length_zero_iff_nil.
    destruct (List.filter _ l) as [|z zs] eqn:Hf; [done|]. exfalso.
    assert (Hz : z ∈ List.filter (fun y => bool_decide (f y = f x)) l)
      by (rewrite Hf; left).
    apply elem_of_filter_bool in Hz as [Hz Hzx].
    apply bool_decide_eq_true in Hzx. apply Hy. rewrite Hb, <- Hzx.
    by apply list_elem_of_fmap_2.
  - apply bool_decide_eq_false in Hb.
    apply elem_of_cons in Hin as [->|Hin]; [done|]. by apply IH.
Qed.

Lemma filter_fresh {A} (f : A → Z) (l : list A) (x : A) :
  f x = fresh_id (f <$> l) →
  List.filter (fun y => negb (bool_decide (f y = f x))) (l ++ [x])%list = l.
Proof.
  intros Hx. rewrite List.filter_app. simpl.
  rewrite bool_decide_eq_true_2 by done. simpl. rewrite app_nil_r.
  apply forallb_filter_id, forallb_forall. intros y Hy.
  apply negb_true_iff, bool_decide_eq_false. intros Heq.
  assert (f y < fresh_id (f <$> l)); [|lia].
  apply fresh_id_gt, list_elem_of_fmap_2. by apply list_elem_of_In.
Qed.

Lemma find_suspect_Some w i s :
  find_suspect w i = Some s → s ∈ suspects w ∧ Suspect.id s = i.
Proof.
  unfold find_suspect. intros Hf. apply find_some in Hf as [Hin Hid].
  split; [by apply list_elem_of_In | by apply bool_decide_eq_true in Hid].
Qed.

Lemma find_evidence_Some w i e :
  find_evidence w i = Some e → e ∈ evidences w ∧ Evidence.id e = i.
Proof.
  unfold find_evidence. intros Hf. apply find_some in Hf as [Hin Hid].
  split; [by apply list_elem_of_In | by apply bool_decide_eq_true in Hid].
Qed.

Lemma find_evidence_None w i :
  find_evidence w i = None ↔ ∀ e, e ∈ evidences w → Evidence.id e ≠ i.
Proof.
  unfold find_evidence. split.
  - intros Hf e Hin Hid.
    pose proof (find_none _ _ Hf e (proj1 (list_elem_of_In _ _) Hin)) as Hb.
    simpl in Hb. by apply bool_decide_eq_false in Hb.
  - intros Hall. destruct (List.find _ _) as [e|] eqn:Hf; [|done].
    apply find_some in Hf as [Hin Hid]. apply bool_decide_eq_true in Hid.
    exfalso. apply (Hall e); [by apply list_elem_of_In | done].
Qed.

Lemma Case_query_get_Some `{Externals} w ident c :
  Case_query_get w ident = Ok (Some c) → c ∈ cases w.
Proof.
  unfold Case_query_get. intros Hq.
  assert (∃ i, find_case w i = Some c) as [i Hi].
  { destruct ident; try (by injection Hq; eauto);
      destruct (ident_other _) as [[i|]|]; try discriminate;
      injection Hq; eauto. }
  by apply find_case_Some in Hi as [? _].
Qed.

(** ** What each handler can do to the store *)

Lemma add_case_inv `{Externals} w data :
  (add_case w data).2 = w
  ∨ ∃ c, add_case w data
         = (Resp 200 (jsonify1 "message" "Case added successfully"),
            set_cases w (cases w ++ [c]))
         ∧ Case.id c = fresh_id (Case.id <$> cases w)
         ∧ Case.status c = SText "Open".
Proof.
  unfold add_case. destruct (negb (truthy data)); [by left|].
  destruct (rbind (py_get data "crime_type") _) as [c|e] eqn:Hm; [|by left].
  right. exists c. split; [done|].
  repeat (apply rbind_Ok in Hm as (? & _ & Hm)).
  injection Hm as <-. done.
Qed.

Lemma add_evidence_inv `{Externals} w data :
  (add_evidence w data).2 = w
  ∨ ∃ e c, add_evidence w data
           = (Resp 200 (jsonify1 "message" "Evidence added successfully"),
              set_evidences w (evidences w ++ [e]))
           ∧ Evidence.id e = fresh_id (Evidence.id <$> evidences w)
           ∧ c ∈ cases w
           ∧ Evidence.case_id e = Case.id c.
Proof.
  unfold add_evidence. destruct (negb (truthy data)); [by left|].
  destruct (rbind (py_get data "case_id") _) as [[[cid et] ds]|e0]; [|by left].
  destruct (negb (truthy cid)); [by left|].
  destruct (Case_query_get w cid) as [[c|]|e0] eqn:Hq; [|by left..].
  destruct (rbind (bind_case_id cid) _) as [e|e0] eqn:Hm; [|by left].
  right. exists e, c. split; [done|].
  repeat (apply rbind_Ok in Hm as (? & _ & Hm)).
  injection Hm as <-. simpl.
  split; [done|]. split; [by eapply Case_query_get_Some | done].
Qed.

Lemma register_inv `{Externals} w data :
  (∃ e, register w data = (Unhandled e, w))
  ∨ ∃ u, register w data
         = (Resp 200 (jsonify1 "message" "User registered successfully"),
            set_users w (users w ++ [u]))
         ∧ User.id u = fresh_id (User.id <$> users w)
         ∧ username_taken w (User.username u) = false.
Proof.
  unfold register.
  destruct (rbind (py_getitem data "username") _) as [u|e] eqn:Hm;
    [|left; by eexists].
  right. exists u. split; [done|].
  repeat (apply rbind_Ok in Hm as (? & _ & Hm)).
  destruct (username_taken w _) eqn:Ht; [discriminate|].
  injection Hm as <-. done.
Qed.

Lemma add_suspect_inv `{Externals} w data :
  (∃ e, add_suspect w data = (Unhandled e, w))
  ∨ ∃ s, add_suspect w data
         = (Resp 200 (jsonify1 "message" "Suspect added successfully"),
            set_suspects w (suspects w ++ [s]))
         ∧ Suspect.id s = fresh_id (Suspect.id <$> suspects w).
Proof.
  unfold add_suspect.
  destruct (rbind (py_getitem data "name") _) as [s|e] eqn:Hm;
    [|left; by eexists].
  right. exists s. split; [done|].
  repeat (apply rbind_Ok in Hm as (? & _ & Hm)).
  injection Hm as <-. done.
Qed.

(** ** Invariants of the store *)








Lemma predict_suspect_world `{Externals} w data : (predict_suspect w data).2 = w.
Proof.
  unfold predict_suspect. destruct (ml_model_pkl w) as [b|]; [|done].
  by destruct (input_data b data) as [[[??]?]|?].
Qed.



Lemma app_users `{Externals} w r :
  users (app w r).2 = users w ∨ ∃ data, r = POST_register data.
Proof.
  destruct r; simpl; try (by left); try (by right; eexists).
  - by destruct (add_case_inv w data) as [->|(c & -> & _)]; left.
  - unfold delete_case. by destruct (find_case w case_id); left.
  - by destruct (add_suspect_inv w data) as [[e ->]|(s & -> & _)]; left.
  - unfold delete_suspect. by destruct (find_suspect w suspect_id); left.
  - by destruct (add_evidence_inv w data) as [->|(e & c & -> & _)]; left.
  - unfold delete_evidence. by destruct (find_evidence w evidence_id); left.
  - left. by rewrite predict_suspect_world.
Qed.

Lemma register_users_integrity `{Externals} w data :
  users_integrity w → users_integrity (register w data).2.
Proof.
  intros Hw. destruct (register_inv w data) as [[e ->]|(u & -> & Hid & Ht)];
    [done|].
  destruct Hw as [Hids Hnames]. split; simpl.
  - by apply NoDup_snoc_fresh.
  - rewrite fmap_app, List.filter_app. simpl.
    unfold username_taken in Ht.
    destruct (bool_decide (User.username u = SNull)) eqn:Hnull; simpl.
    { by rewrite app_nil_r. }
    apply bool_decide_eq_false in Hnull.
    assert (Hfresh : User.username u ∉ User.username <$> users w).
    { destruct (User.username u); [done|..];
        by apply bool_decide_eq_false in Ht. }
    apply NoDup_app. split; [done|]. split; [|apply NoDup_singleton].
    intros v [Hv _]%elem_of_filter_bool [->|[]%elem_of_nil]%elem_of_cons.
    done.
Qed.

(** X2. Whatever requests are served, user ids stay unique and no two users
    hold the same username (NULL apart): [register] is the only handler
    that touches the table, and the unique constraint refuses a taken
    name. *)
Theorem serve_users_integrity `{Externals} (w : World) (rs : list route) :
  users_integrity w → users_integrity (serve w rs).
Proof.
  revert w. induction rs as [|r rs IH]; intros w Hw; simpl; [done|].
  apply IH. destruct (app_users w r) as [Hu|[data ->]].
  - unfold users_integrity in *. by rewrite Hu.
  - by apply register_users_integrity.
Qed.

Lemma app_all_open `{Externals} w r : all_open w → all_open (app w r).2.
Proof.
  intros Hw. destruct r; simpl; try done.
  - by destruct (register_inv w data) as [[e ->]|(u & -> & _)].
  - destruct (add_case_inv w data) as [->|(c & -> & _ & Hst)]; [done|].
    intros c' [Hin|Hin]%elem_of_app; [by apply Hw|].
    by apply list_elem_of_singleton in Hin as ->.
  - unfold delete_case. destruct (find_case w case_id); [|done].
    intros c' [Hin _]%elem_of_filter_bool. by apply Hw.
  - by destruct (add_suspect_inv w data) as [[e ->]|(s & -> & _)].
  - unfold delete_suspect. by destruct (find_suspect w suspect_id).
  - by destruct (add_evidence_inv w data) as [->|(e & c & -> & _)].
  - unfold delete_evidence. by destruct (find_evidence w evidence_id).
  - by rewrite predict_suspect_world.
Qed.

Lemma serve_all_open `{Externals} w rs : all_open w → all_open (serve w rs).
Proof.
  revert w. induction rs as [|r rs IH]; intros w Hw; simpl; [done|].
  by apply IH, app_all_open.
Qed.

Lemma report_fields w :
  body_field "total_cases" (report w).1 = Some (count (cases w))
  ∧ body_field "open_cases" (report w).1 = Some (count (open_cases w))
  ∧ body_field "total_suspects" (report w).1 = Some (count (suspects w))
  ∧ body_field "total_evidence" (report w).1 = Some (count (evidences w)).
Proof. unfold report, body_field. simpl. by simplify_map_eq. Qed.

(** X3. No handler writes a status other than "Open" and none updates a
    case, so after any sequence of requests on a store whose cases are all
    open, [report] gives [open_cases] equal to [total_cases]. *)
Theorem report_open_equals_total `{Externals} (w : World) (rs : list route) :
  all_open w →
  let answer := (report (serve w rs)).1 in
  body_field "open_cases" answer = body_field "total_cases" answer
  ∧ body_field "total_cases" answer
    = Some (JNum (Z.of_nat (length (cases (serve w rs))))).
Proof.
  intros Hw answer. subst answer.
  apply (serve_all_open w rs) in Hw.
  destruct (report_fields (serve w rs)) as (-> & -> & _). split; [|done].
  unfold count, open_cases. rewrite forallb_filter_id; [done|].
  apply forallb_forall. intros c Hin.
  apply bool_decide_eq_true, Hw. by apply list_elem_of_In.
Qed.

(** ** Round trips and compositions *)

Lemma outcome_body_key k1 v1 k2 v2 s1 s2 (w1 w2 : World) :
  (Resp s1 (jsonify1 k1 v1), w1) = (Resp s2 (jsonify1 k2 v2), w2) → k1 = k2.
Proof.
  intros Heq. apply (f_equal (fun p => body_field k1 p.1)) in Heq.
  unfold body_field, jsonify1 in Heq. simpl in Heq.
  rewrite lookup_singleton_eq in Heq. symmetry in Heq.
  by apply lookup_singleton_Some in Heq as [? _].
Qed.

Lemma find_case_id w c :
  c ∈ cases w → ∃ c', find_case w (Case.id c) = Some c' ∧ Case.id c' = Case.id c.
Proof.
  intros Hin. destruct (find_case_elem_of w c Hin) as [c' Hf].
  exists c'. split; [done|]. by apply find_case_Some in Hf as [_ ?].
Qed.

Lemma world_eta w :
  {| users := users w; cases := cases w; suspects := suspects w;
     evidences := evidences w; ml_model_pkl := ml_model_pkl w |} = w.
Proof. by destruct w. Qed.

Lemma find_snoc_fresh {A} (f : A → Z) (l : list A) (x : A) :
  f x = fresh_id (f <$> l) →
  List.find (fun y => bool_decide (f y = f x)) (l ++ [x])%list = Some x.
Proof.
  intros Hx.
  assert (Hl : ∀ y, y ∈ l → bool_decide (f y = f x) = false).
  { intros y Hy. apply bool_decide_eq_false. intros Heq.
    assert (f y < fresh_id (f <$> l)); [|lia].
    by apply fresh_id_gt, list_elem_of_fmap_2. }
  clear Hx. induction l as [|y l IH]; simpl.
  - by rewrite bool_decide_eq_true_2.
  - rewrite Hl by left. apply IH. intros z Hz. apply Hl. by right.
Qed.

(** X4. Evidence added to an existing case with a positive id is stored
    with the values sent and a fresh id; [view_evidence] for that case then
    returns the former list followed by the new record, and the lists of
    all other cases are as before. *)
Theorem add_evidence_then_view `{Externals}
    (w : World) (c : Case.t) (d : gmap string json) (t ds : colval) :
  c ∈ cases w →
  Case.id c ≠ 0 →
  d !! "case_id" = Some (JNum (Case.id c)) →
  bind_text (default JNull (d !! "evidence_type")) = Ok t →
  bind_text (default JNull (d !! "description")) = Ok ds →
  let e := {| Evidence.id := fresh_id (Evidence.id <$> evidences w);
              Evidence.case_id := Case.id c;
              Evidence.evidence_type := t;
              Evidence.description := ds |} in
  let w' := (add_evidence w (JObj d)).2 in
  add_evidence w (JObj d)
  = (Resp 200 (jsonify1 "message" "Evidence added successfully"),
     set_evidences w (evidences w ++ [e]))
  ∧ (view_evidence w' (Case.id c)).1
    = Resp 200 (JArr ((evidence_dict <$> evidence_of w (Case.id c))
                      ++ [evidence_dict e]))
  ∧ ∀ j, j ≠ Case.id c → (view_evidence w' j).1 = (view_evidence w j).1.
Proof.
  intros Hin Hid Hd Ht Hds e w'.
  destruct (find_case_id w c Hin) as (c' & Hf & Hc').
  assert (Hadd : add_evidence w (JObj d)
                 = (Resp 200 (jsonify1 "message" "Evidence added successfully"),
                    set_evidences w (evidences w ++ [e]))).
  { unfold add_evidence. rewrite truthy_JObj.
    2:{ intros ->. by rewrite lookup_empty in Hd. }
    simpl. rewrite Hd. simpl.
    rewrite (proj2 (Z.eqb_neq _ _) Hid). simpl.
    rewrite Hf, Ht, Hds. simpl. subst e. by rewrite Hc'. }
  subst w'. rewrite Hadd. simpl. split; [done|].
  unfold view_evidence, evidence_of. simpl. split.
  - rewrite List.filter_app. simpl. rewrite bool_decide_eq_true_2 by done.
    by rewrite fmap_app.
  - intros j Hj. rewrite List.filter_app. simpl.
    rewrite bool_decide_eq_false_2 by done. by rewrite app_nil_r.
Qed.

(** X5. On a store that keeps its referential integrity, deleting the case
    that [add_case] has just created (its id is the fresh one) gives back
    exactly the store from before the creation. *)
Theorem add_case_then_delete_case `{Externals} (w w' : World) (data : json) :
  store_integrity w →
  add_case w data
  = (Resp 200 (jsonify1 "message" "Case added successfully"), w') →
  delete_case w' (fresh_id (Case.id <$> cases w))
  = (Resp 200 (jsonify1 "message" "Case deleted successfully"), w).
Proof.
  intros (_ & _ & _ & _ & Href) Hadd.
  assert (∃ c, w' = set_cases w (cases w ++ [c])
               ∧ Case.id c = fresh_id (Case.id <$> cases w)) as (c & -> & Hid).
  { unfold add_case in Hadd. destruct (negb (truthy data)).
    { by apply outcome_body_key in Hadd. }
    destruct (rbind (py_get data "crime_type") _) as [c|e] eqn:Hm;
      [|discriminate].
    exists c. split; [by apply (f_equal snd) in Hadd|].
    repeat (apply rbind_Ok in Hm as (? & _ & Hm)).
    by injection Hm as <-. }
  unfold delete_case, find_case. simpl. rewrite <- Hid.
  rewrite (find_snoc_fresh Case.id (cases w) c Hid).
  unfold session_delete_case. simpl.
  rewrite (filter_fresh Case.id (cases w) c Hid).
  rewrite forallb_filter_id; [by rewrite world_eta|].
  apply forallb_forall. intros e He%list_elem_of_In.
  apply negb_true_iff, bool_decide_eq_false. intros Heq.
  destruct (Href e He) as (c' & Hc' & Hcid).
  assert (Case.id c' < fresh_id (Case.id <$> cases w)); [|lia].
  by apply fresh_id_gt, list_elem_of_fmap_2.
Qed.

(** X6. Deleting the suspect that [add_suspect] has just created gives
    back exactly the store from before, whatever the store was. *)
Theorem add_suspect_then_delete_suspect `{Externals}
    (w w' : World) (data : json) :
  add_suspect w data
  = (Resp 200 (jsonify1 "message" "Suspect added successfully"), w') →
  delete_suspect w' (fresh_id (Suspect.id <$> suspects w))
  = (Resp 200 (jsonify1 "message" "Suspect deleted successfully"), w).
Proof.
  intros Hadd.
  destruct (add_suspect_inv w data) as [[e He]|(s & Hs & Hid)];
    [congruence|].
  rewrite Hs in Hadd. injection Hadd as <-.
  unfold delete_suspect, find_suspect. simpl. rewrite <- Hid.
  rewrite (find_snoc_fresh Suspect.id (suspects w) s Hid).
  rewrite (filter_fresh Suspect.id (suspects w) s Hid).
  unfold set_suspects. simpl. by rewrite world_eta.
Qed.

(** X7. A deleted case is gone for later requests: deleting it again
    answers "Case not found" and changes nothing, and evidence sent for its
    id is refused with 404 and not stored. *)
Theorem deleted_case_is_gone `{Externals}
    (w : World) (c : Case.t) (d : gmap string json) :
  c ∈ cases w →
  Case.id c ≠ 0 →
  d !! "case_id" = Some (JNum (Case.id c)) →
  let w' := (delete_case w (Case.id c)).2 in
  delete_case w' (Case.id c)
  = (Resp 200 (jsonify1 "error" "Case not found"), w')
  ∧ add_evidence w' (JObj d)
    = (Resp 404 (jsonify1 "error" "Case not found"), w').
Proof.
  intros Hin Hid Hd w'.
  destruct (find_case_id w c Hin) as (c' & Hf & Hc').
  assert (Hgone : find_case w' (Case.id c) = None).
  { subst w'. unfold delete_case. rewrite Hf. simpl. rewrite <- Hc'.
    apply find_case_session_delete. }
  split.
  - unfold delete_case. by rewrite Hgone.
  - unfold add_evidence. rewrite truthy_JObj.
    2:{ intros ->. by rewrite lookup_empty in Hd. }
    simpl. rewrite Hd. simpl.
    rewrite (proj2 (Z.eqb_neq _ _) Hid). simpl. by rewrite Hgone.
Qed.

(** ** Listings and counts *)





(** X9. [delete_evidence] on the id of a stored record removes that record
    and nothing else: with unique evidence ids the table shrinks by exactly
    one row, the other rows stay, and the cases, the parent case included,
    are untouched. *)
Theorem delete_evidence_removes_one (w : World) (e : Evidence.t) :
  NoDup (Evidence.id <$> evidences w) →
  e ∈ evidences w →
  let w' := (delete_evidence w (Evidence.id e)).2 in
  (delete_evidence w (Evidence.id e)).1
  = Resp 200 (jsonify1 "message" "Evidence deleted successfully")
  ∧ (∀ e', e' ∈ evidences w' ↔ e' ∈ evidences w ∧ e' ≠ e)
  ∧ (length (evidences w') + 1 = length (evidences w))%nat
  ∧ cases w' = cases w.
Proof.
  intros Hnd Hin w'. subst w'. unfold delete_evidence.
  destruct (find_evidence w (Evidence.id e)) as [e0|] eqn:Hf.
  2:{ exfalso. by apply (proj1 (find_evidence_None w _) Hf e). }
  apply find_evidence_Some in Hf as [Hin0 Hid0]. simpl. rewrite Hid0.
  split; [done|]. split; [|split; [|done]].
  - intros e'. rewrite elem_of_filter_bool.
    rewrite negb_true_iff, bool_decide_eq_false. split.
    + intros [He' Hne]. split; [done|]. by intros ->.
    + intros [He' Hne]. split; [done|]. intros Heq. apply Hne.
      apply list_elem_of_lookup in He' as [i Hi].
      apply list_elem_of_lookup in Hin as [j Hj].
      assert (i = j) as ->; [|congruence].
      apply (NoDup_lookup (Evidence.id <$> evidences w) i j (Evidence.id e));
        [done|..]; rewrite list_lookup_fmap.
      * by rewrite Hi, <- Heq.
      * by rewrite Hj.
  - rewrite <- (filter_split_length
                  (fun y => bool_decide (Evidence.id y = Evidence.id e))
                  (evidences w)).
    by rewrite (filter_key_length Evidence.id (evidences w) e Hnd Hin).
Qed.

(** X10. After a successful [delete_case] on a store with unique case ids,
    [report] counts one case less and N evidence rows less, N the number of
    evidence rows the case had; the suspect count is as before. *)
Theorem report_after_delete_case (w : World) (c : Case.t) :
  NoDup (Case.id <$> cases w) →
  c ∈ cases w →
  let N := length (evidence_of w (Case.id c)) in
  let answer := (report (delete_case w (Case.id c)).2).1 in
  body_field "total_cases" answer
  = Some (JNum (Z.of_nat (length (cases w)) - 1))
  ∧ body_field "total_evidence" answer
    = Some (JNum (Z.of_nat (length (evidences w)) - Z.of_nat N))
  ∧ body_field "total_suspects" answer
    = body_field "total_suspects" (report w).1.
Proof.
  intros Hnd Hin N answer. subst N answer.
  destruct (find_case_id w c Hin) as (c' & Hf & Hc').
  destruct (report_fields (delete_case w (Case.id c)).2) as (-> & _ & -> & ->).
  destruct (report_fields w) as (_ & _ & -> & _).
  unfold delete_case. rewrite Hf. simpl. rewrite Hc'. unfold count.
  split; [|split; [|done]]; do 2 f_equal.
  - pose proof (filter_split_length
                  (fun y => bool_decide (Case.id y = Case.id c)) (cases w)) as Hl.
    rewrite (filter_key_length Case.id (cases w) c Hnd Hin) in Hl. lia.
  - pose proof (filter_split_length
                  (fun y => bool_decide (Evidence.case_id y = Case.id c))
                  (evidences w)) as Hl.
    unfold evidence_of. lia.
Qed.

(** ** Unchecked request bodies *)

(** X11. [register] and [add_suspect] check nothing: neither ever answers
    with an error body.  A body that is not a dict (also [None]) raises
    [TypeError], a dict that lacks a field raises [KeyError], and a
    username that is already taken is refused by the unique constraint; in
    each of these cases the request ends as an unhandled fault and nothing
    is stored. *)
Theorem register_and_add_suspect_unchecked `{Externals} (w : World) :
  (∀ data,
     (∃ e, register w data = (Unhandled e, w))
     ∨ ∃ u, register w data
            = (Resp 200 (jsonify1 "message" "User registered successfully"),
               set_users w (users w ++ [u])))
  ∧ (∀ data,
     (∃ e, add_suspect w data = (Unhandled e, w))
     ∨ ∃ s, add_suspect w data
            = (Resp 200 (jsonify1 "message" "Suspect added successfully"),
               set_suspects w (suspects w ++ [s])))
  ∧ (∀ data,
     (∀ d, data ≠ JObj d) →
     register w data = (Unhandled TypeError, w)
     ∧ add_suspect w data = (Unhandled TypeError, w))
  ∧ (∀ d,
     d !! "username" = None ∨ d !! "password" = None ∨ d !! "role" = None →
     register w (JObj d) = (Unhandled KeyError, w))
  ∧ (∀ d,
     d !! "name" = None ∨ d !! "criminal_history" = None →
     add_suspect w (JObj d) = (Unhandled KeyError, w))
  ∧ (∀ d name v2 v3,
     d !! "username" = Some (JStr name) →
     d !! "password" = Some (JStr v2) →
     d !! "role" = Some (JStr v3) →
     SText name ∈ User.username <$> users w →
     register w (JObj d) = (Unhandled DBAPIError, w)).
Proof.
  split; [|split; [|split; [|split; [|split]]]].
  - intros data. destruct (register_inv w data) as [?|(u & ? & _)]; eauto.
  - intros data. destruct (add_suspect_inv w data) as [?|(s & ? & _)]; eauto.
  - intros data Hd. unfold register, add_suspect.
    destruct data; try done. by destruct (Hd d).
  - intros d Hd. unfold register. simpl.
    destruct (d !! "username") as [v1|]; simpl; [|done].
    destruct (d !! "password") as [v2|]; simpl; [|done].
    destruct (d !! "role") as [v3|]; simpl; [|done].
    by destruct Hd as [?|[?|?]].
  - intros d Hd. unfold add_suspect. simpl.
    destruct (d !! "name") as [v1|]; simpl; [|done].
    destruct (d !! "criminal_history") as [v2|]; simpl; [|done].
    by destruct Hd as [?|?].
  - intros d name v2 v3 H1 H2 H3 Hin. unfold register. simpl.
    rewrite H1, H2, H3. simpl. by rewrite bool_decide_eq_true_2.
Qed.

(** X12. A body that lacks the three fields is not rejected by [add_case]:
    any non-empty dict without them creates a case whose three fields are
    NULL and whose status is "Open". *)
Theorem add_case_missing_fields_null `{Externals}
    (w : World) (d : gmap string json) :
  d ≠ ∅ →
  d !! "crime_type" = None →
  d !! "location" = None →
  d !! "time_of_day" = None →
  add_case w (JObj d)
  = (Resp 200 (jsonify1 "message" "Case added successfully"),
     set_cases w
       (cases w ++ [ {| Case.id := fresh_id (Case.id <$> cases w);
                        Case.crime_type := SNull;
                        Case.location := SNull;
                        Case.time_of_day := SNull;
                        Case.status := SText "Open" |} ])).
Proof.
  intros Hd H1 H2 H3. unfold add_case. rewrite (truthy_JObj d Hd). simpl.
  by rewrite H1, H2, H3.
Qed.

(** ** Training and prediction together *)

Lemma fit_set_eq y1 y2 : (∀ s, s ∈ y1 ↔ s ∈ y2) → fit y1 = fit y2.
Proof.
  intros Hset.
  apply (Sorted_unique String.le);
    [apply Sorted_merge_sort; apply _ .. |].
  apply NoDup_Permutation; [apply fit_NoDup..|].
  intros s. rewrite !fit_elem_of. apply Hset.
Qed.

(** X13. The encoders depend only on which category strings occur in the
    training data, not on the order or the number of the rows: two datasets
    with the same sets of values per column give the same three encoders in
    the bundle. *)
Theorem train_model_encoders_set `{Externals}
    (w1 w2 w1' w2' : World) (data1 data2 : list Row) (b1 b2 : Bundle) :
  (∀ s, s ∈ row_crime_type <$> data1 ↔ s ∈ row_crime_type <$> data2) →
  (∀ s, s ∈ row_location <$> data1 ↔ s ∈ row_location <$> data2) →
  (∀ s, s ∈ row_time_of_day <$> data1 ↔ s ∈ row_time_of_day <$> data2) →
  train_model w1 data1 = Ok w1' →
  train_model w2 data2 = Ok w2' →
  ml_model_pkl w1' = Some b1 →
  ml_model_pkl w2' = Some b2 →
  le_crime b1 = le_crime b2
  ∧ le_location b1 = le_location b2
  ∧ le_time b1 = le_time b2.
Proof.
  intros Hc Hl Ht H1 H2 Hb1 Hb2.
  unfold train_model, fit_transform in H1, H2.
  rewrite (fit_set_eq _ _ Hc), (fit_set_eq _ _ Hl), (fit_set_eq _ _ Ht) in H1.
  destruct (mapM _ (row_crime_type <$> data1)); [|discriminate].
  destruct (mapM _ (row_location <$> data1)); [|discriminate].
  destruct (mapM _ (row_time_of_day <$> data1)); [|discriminate].
  destruct (rf_fit _ _); [|discriminate].
  destruct (mapM _ (row_crime_type <$> data2)); [|discriminate].
  destruct (mapM _ (row_location <$> data2)); [|discriminate].
  destruct (mapM _ (row_time_of_day <$> data2)); [|discriminate].
  destruct (rf_fit _ _); [|discriminate].
  injection H1 as <-. injection H2 as <-. simpl in Hb1, Hb2.
  injection Hb1 as <-. injection Hb2 as <-. done.
Qed.

Lemma train_model_bundle `{Externals} w w' data :
  train_model w data = Ok w' →
  ∃ m, w' = set_ml_model_pkl w
              (Some {| model := m;
                       le_crime := fit (row_crime_type <$> data);
                       le_location := fit (row_location <$> data);
                       le_time := fit (row_time_of_day <$> data) |}).
Proof.
  unfold train_model, fit_transform.
  destruct (mapM _ (row_crime_type <$> data)); [|discriminate].
  destruct (mapM _ (row_location <$> data)); [|discriminate].
  destruct (mapM _ (row_time_of_day <$> data)); [|discriminate].
  destruct (rf_fit _ _) as [m|]; [|discriminate].
  intros [= <-]. by exists m.
Qed.

Lemma transform_fit_seen `{Externals} y s :
  s ∈ y → ∃ i, transform (fit y) (JStr s) = Ok i.
Proof.
  intros Hin. simpl.
  destruct (proj1 (index_of_is_Some s (fit y))) as [i ->]; [|by eexists].
  by apply fit_elem_of.
Qed.

(** X14. After a successful [train_model], a prediction request whose three
    fields are the values of some row of the training data gets a
    prediction, never the "Invalid input values" answer. *)
Theorem train_then_predict_seen `{Externals}
    (w w' : World) (data : list Row) (row : Row) :
  train_model w data = Ok w' →
  row ∈ data →
  ∃ label,
    predict_suspect w'
      (request (row_crime_type row) (row_location row) (row_time_of_day row))
    = (Resp 200 (jsonify1 "suspect_likely" label), w').
Proof.
  intros Ht Hrow. apply train_model_bundle in Ht as [m ->].
  destruct (transform_fit_seen (row_crime_type <$> data) (row_crime_type row))
    as [x1 H1]; [by apply list_elem_of_fmap_2|].
  destruct (transform_fit_seen (row_location <$> data) (row_location row))
    as [x2 H2]; [by apply list_elem_of_fmap_2|].
  destruct (transform_fit_seen (row_time_of_day <$> data) (row_time_of_day row))
    as [x3 H3]; [by apply list_elem_of_fmap_2|].
  exists (predict m x1 x2 x3).
  unfold predict_suspect, input_data, request, py_getitem. simpl.
  simplify_map_eq. simpl in H1, H2, H3. unfold rbind.
  destruct (index_of (row_crime_type row) _); [|discriminate].
  destruct (index_of (row_location row) _); [|discriminate].
  destruct (index_of (row_time_of_day row) _); [|discriminate].
  by injection H1 as <-; injection H2 as <-; injection H3 as <-.
Qed.

Lemma app_ml_model_pkl `{Externals} w r :
  ml_model_pkl (app w r).2 = ml_model_pkl w.
Proof.
  destruct r; simpl; try done.
  - by destruct (register_inv w data) as [[e ->]|(u & -> & _)].
  - by destruct (add_case_inv w data) as [->|(c & -> & _)].
  - unfold delete_case. by destruct (find_case w case_id).
  - by destruct (add_suspect_inv w data) as [[e ->]|(s & -> & _)].
  - unfold delete_suspect. by destruct (find_suspect w suspect_id).
  - by destruct (add_evidence_inv w data) as [->|(e & c & -> & _)].
  - unfold delete_evidence. by destruct (find_evidence w evidence_id).
  - by rewrite predict_suspect_world.
Qed.

Lemma serve_ml_model_pkl `{Externals} w rs :
  ml_model_pkl (serve w rs) = ml_model_pkl w.
Proof.
  revert w. induction rs as [|r rs IH]; intros w; simpl; [done|].
  by rewrite IH, app_ml_model_pkl.
Qed.

(** X15. No request writes [ml_model.pkl]: after any sequence of requests
    the bundle is the one from before, and [predict_suspect] answers every
    body as it did before, however the tables have changed. *)
Theorem serve_keeps_predictions `{Externals}
    (w : World) (rs : list route) (data : json) :
  ml_model_pkl (serve w rs) = ml_model_pkl w
  ∧ (predict_suspect (serve w rs) data).1 = (predict_suspect w data).1.
Proof.
  pose proof (serve_ml_model_pkl w rs) as Hb. split; [done|].
  unfold predict_suspect. rewrite Hb.
  destruct (ml_model_pkl w) as [b|]; [|done].
  by destruct (input_data b data) as [[[??]?]|?].
Qed.

(** X16. The start-up block trains at most once: when it has succeeded the
    bundle is on disk and the four tables are as before, and running it
    again, on whatever training data, changes nothing. *)
Theorem main_trains_once `{Externals}
    (w w' : World) (data data' : list Row) :
  main w data = Ok w' →
  is_Some (ml_model_pkl w')
  ∧ users w' = users w ∧ cases w' = cases w
  ∧ suspects w' = suspects w ∧ evidences w' = evidences w
  ∧ main w' data' = Ok w'.
Proof.
  unfold main at 1. destruct (ml_model_pkl w) as [b|] eqn:Hb.
  - intros [= <-]. unfold main. rewrite Hb. eauto 10.
  - intros [m ->]%train_model_bundle. unfold main. simpl. eauto 10.
Qed.

(** ** Instances on the sample data *)


Lemma empty_world_integrity : store_integrity empty_world.
Proof.
  unfold store_integrity. simpl.
  repeat split; try constructor; by intros ? ?%elem_of_nil.
Qed.


Lemma serve_users_integrity_witness :
  users_integrity (@serve strict_externals empty_world scenario)
  ∧ length (users (@serve strict_externals empty_world scenario)) = 1%nat.
Proof.
  split; [|vm_compute; reflexivity].
  apply (@serve_users_integrity strict_externals empty_world scenario).
  unfold users_integrity. simpl. split; constructor.
Defined.

Lemma report_open_equals_total_witness :
  body_field "open_cases"
    (report (@serve strict_externals sample_world scenario)).1
  = Some (JNum 2).
Proof.
  assert (Ho : all_open sample_world).
  { intros c Hin. apply list_elem_of_In in Hin. simpl in Hin.
    destruct Hin as [<-|[<-|[]]]; reflexivity. }
  destruct (@report_open_equals_total strict_externals sample_world scenario Ho)
    as [-> ->].
  vm_compute. reflexivity.
Defined.

Lemma add_evidence_then_view_witness :
  (view_evidence
     (@add_evidence strict_externals sample_world (JObj evidence_body)).2 1).1
  = Resp 200
      (JArr ((evidence_dict <$> evidence_of sample_world 1)
             ++ [evidence_dict
                   {| Evidence.id := 4; Evidence.case_id := 1;
                      Evidence.evidence_type := SText "fingerprint";
                      Evidence.description := SText "glass" |}])).
Proof.
  assert (Hin : theft_case ∈ cases sample_world) by (simpl; left).
  assert (Hid : Case.id theft_case ≠ 0) by (simpl; lia).
  destruct (@add_evidence_then_view strict_externals sample_world theft_case
              evidence_body (SText "fingerprint") (SText "glass")
              Hin Hid eq_refl eq_refl eq_refl) as (_ & Hv & _).
  exact Hv.
Defined.

Lemma add_case_then_delete_case_witness :
  delete_case (set_cases empty_world [theft_case]) 1
  = (Resp 200 (jsonify1 "message" "Case deleted successfully"), empty_world).
Proof.
  apply (@add_case_then_delete_case strict_externals empty_world
           (set_cases empty_world [theft_case])
           (request "theft" "downtown" "night") empty_world_integrity).
  vm_compute. reflexivity.
Defined.

Lemma add_suspect_then_delete_suspect_witness :
  delete_suspect
    (@add_suspect strict_externals sample_world (JObj suspect_body)).2 1
  = (Resp 200 (jsonify1 "message" "Suspect deleted successfully"),
     sample_world).
Proof.
  apply (@add_suspect_then_delete_suspect strict_externals sample_world _
           (JObj suspect_body)).
  vm_compute. reflexivity.
Defined.

Lemma deleted_case_is_gone_witness :
  @add_evidence strict_externals (delete_case sample_world 1).2
    (JObj evidence_body)
  = (Resp 404 (jsonify1 "error" "Case not found"),
     (delete_case sample_world 1).2).
Proof.
  assert (Hin : theft_case ∈ cases sample_world) by (simpl; left).
  assert (Hid : Case.id theft_case ≠ 0) by (simpl; lia).
  destruct (@deleted_case_is_gone strict_externals sample_world theft_case
              evidence_body Hin Hid eq_refl) as [_ Ha].
  exact Ha.
Defined.


Lemma delete_evidence_removes_one_witness :
  length (evidences (delete_evidence sample_world 3).2) = 2%nat
  ∧ cases (delete_evidence sample_world 3).2 = cases sample_world.
Proof.
  assert (Hnd : NoDup (Evidence.id <$> evidences sample_world))
    by (apply (bool_decide_unpack _); vm_compute; reflexivity).
  assert (Hin : {| Evidence.id := 3; Evidence.case_id := 1;
                   Evidence.evidence_type := SText "footprint";
                   Evidence.description := SText "mud" |}
                ∈ evidences sample_world)
    by (apply list_elem_of_In; simpl; tauto).
  destruct (delete_evidence_removes_one sample_world _ Hnd Hin)
    as (_ & _ & Hlen & Hc).
  simpl in Hlen, Hc. split; [|exact Hc]. simpl. lia.
Defined.

Lemma report_after_delete_case_witness :
  body_field "total_cases" (report (delete_case sample_world 1).2).1
  = Some (JNum 1)
  ∧ body_field "total_evidence" (report (delete_case sample_world 1).2).1
    = Some (JNum 1).
Proof.
  assert (Hnd : NoDup (Case.id <$> cases sample_world))
    by (apply (bool_decide_unpack _); vm_compute; reflexivity).
  assert (Hin : theft_case ∈ cases sample_world) by (simpl; left).
  destruct (report_after_delete_case sample_world theft_case Hnd Hin)
    as (Hc & He & _).
  split; [exact Hc | exact He].
Defined.

Lemma register_and_add_suspect_unchecked_witness :
  @register strict_externals empty_world JNull
  = (Unhandled TypeError, empty_world)
  ∧ @register strict_externals empty_world
      (JObj (<["username" := JStr "a"]> ∅))
    = (Unhandled KeyError, empty_world)
  ∧ @register strict_externals
      (@register strict_externals empty_world (JObj user_body)).2
      (JObj user_body)
    = (Unhandled DBAPIError,
       (@register strict_externals empty_world (JObj user_body)).2).
Proof.
  split; [|split].
  - destruct (@register_and_add_suspect_unchecked strict_externals empty_world)
      as (_ & _ & Hty & _).
    apply (Hty JNull). intros d Hd. discriminate Hd.
  - destruct (@register_and_add_suspect_unchecked strict_externals empty_world)
      as (_ & _ & _ & Hkey & _).
    apply Hkey. right; left. vm_compute. reflexivity.
  - destruct (@register_and_add_suspect_unchecked strict_externals
                (@register strict_externals empty_world (JObj user_body)).2)
      as (_ & _ & _ & _ & _ & Hdup).
    apply (Hdup user_body "a" "p" "admin");
      [vm_compute; reflexivity..|].
    apply list_elem_of_In. vm_compute. tauto.
Defined.

Lemma add_case_missing_fields_null_witness :
  (@add_case strict_externals empty_world
     (JObj (<["status" := JStr "Closed"]> ∅))).2
  = set_cases empty_world
      [ {| Case.id := 1; Case.crime_type := SNull; Case.location := SNull;
           Case.time_of_day := SNull; Case.status := SText "Open" |} ].
Proof.
  rewrite (@add_case_missing_fields_null strict_externals empty_world
             (<["status" := JStr "Closed"]> ∅));
    [reflexivity | apply insert_non_empty | vm_compute; reflexivity..].
Defined.

Lemma train_model_encoders_set_witness :
  ∃ w1 w2,
    @train_model strict_externals empty_world training_rows = Ok w1
    ∧ @train_model strict_externals sample_world training_rows_shuffled = Ok w2
    ∧ le_crime <$> ml_model_pkl w1 = le_crime <$> ml_model_pkl w2.
Proof.
  destruct (@train_model strict_externals empty_world training_rows)
    as [w1|] eqn:H1; [|vm_compute in H1; discriminate H1].
  destruct (@train_model strict_externals sample_world training_rows_shuffled)
    as [w2|] eqn:H2; [|vm_compute in H2; discriminate H2].
  exists w1, w2. split; [reflexivity|]. split; [reflexivity|].
  destruct (ml_model_pkl w1) as [b1|] eqn:Hb1.
  2:{ vm_compute in H1. injection H1 as <-. discriminate Hb1. }
  destruct (ml_model_pkl w2) as [b2|] eqn:Hb2.
  2:{ vm_compute in H2. injection H2 as <-. discriminate Hb2. }
  destruct (@train_model_encoders_set strict_externals empty_world sample_world
              w1 w2 training_rows training_rows_shuffled b1 b2)
    as (Hc & _ & _); try assumption;
    try (intros s; simpl; rewrite !elem_of_cons, !elem_of_nil; tauto).
  simpl. by rewrite Hc.
Defined.

Lemma train_then_predict_seen_witness :
  ∃ label,
    @predict_suspect strict_externals trained_world
      (request "assault" "harbour" "day")
    = (Resp 200 (jsonify1 "suspect_likely" label), trained_world).
Proof.
  apply (@train_then_predict_seen strict_externals empty_world trained_world
           training_rows
           {| row_crime_type := "assault"; row_location := "harbour";
              row_time_of_day := "day"; row_suspect := "S2" |}).
  - vm_compute. reflexivity.
  - apply list_elem_of_In. simpl. tauto.
Defined.

Lemma main_trains_once_witness :
  @main strict_externals trained_world training_rows_shuffled
  = Ok trained_world.
Proof.
  assert (Hm : @main strict_externals empty_world training_rows
               = Ok trained_world) by (vm_compute; reflexivity).
  destruct (@main_trains_once strict_externals empty_world trained_world
              training_rows training_rows_shuffled Hm)
    as (_ & _ & _ & _ & _ & Hagain).
  exact Hagain.
Defined.

(** X17. [add_case] and [add_evidence] only guard against a falsy body.
    A falsy body ([None], an empty dict or list, 0, "", false) gets the
    error body, with status 200 from [add_case] and 400 from
    [add_evidence]; a truthy body that is not a dict (a non-empty list, a
    number, a string) makes [data.get] raise [AttributeError], an unhandled
    fault.  Nothing is stored in either case. *)
Theorem body_guard_only_falsy `{Externals} (w : World) (data : json) :
  (truthy data = false →
     add_case w data = (Resp 200 (jsonify1 "error" "No JSON received"), w)
     ∧ add_evidence w data
       = (Resp 400 (jsonify1 "error" "No data provided"), w))
  ∧ (truthy data = true → (∀ d, data ≠ JObj d) →
     add_case w data = (Unhandled AttributeError, w)
     ∧ add_evidence w data = (Unhandled AttributeError, w)).
Proof.
  unfold add_case, add_evidence. split.
  - intros ->. done.
  - intros -> Hd. destruct data; try done. by destruct (Hd d).
Qed.

Lemma body_guard_only_falsy_witness :
  @add_case strict_externals sample_world (JObj ∅)
  = (Resp 200 (jsonify1 "error" "No JSON received"), sample_world)
  ∧ @add_evidence strict_externals sample_world (JArr [JNum 1])
    = (Unhandled AttributeError, sample_world).
Proof.
  split.
  - apply (@body_guard_only_falsy strict_externals sample_world (JObj ∅)).
    vm_compute. reflexivity.
  - apply (@body_guard_only_falsy strict_externals sample_world (JArr [JNum 1])).
    + reflexivity.
    + intros d Hd. discriminate Hd.
Defined.
